(** * Authentication core of the backend: accounts, reset tokens, token pairs

    A shallow embedding of [app/models/user.py], [app/exceptions.py],
    [app/schemas/auth.py], [app/services/auth_service.py] and the
    [forgot_password] endpoint of [app/api/v1/auth.py].

    Conventions.
    - A Python [str] is a [string] holding one character per [ascii]
      (code points below 256).
    - Instants ([datetime]) are integers, seconds since the epoch.
    - A function that can raise returns a [result]; code that works on
      the SQLAlchemy session is written in the monad [M], which threads
      the session and keeps it when an exception is raised.
    - [fastapi_core] (hashing and the token codec) is a collaborator
      whose code is not part of the application: it is the interface
      [FastapiCore]. *)

From Stdlib Require Import String Ascii List ZArith NArith Bool Lia.
From Stdlib Require Import DecimalString.
Import ListNotations.
Local Open Scope string_scope.
Local Open Scope Z_scope.

Set Implicit Arguments.

(* ------------------------------------------------------------------ *)
(** ** Python values and strings *)

Module Py.

(** Values that a decoded JSON payload can hold. *)
#[local] Unset Elimination Schemes.
Inductive pyval : Type :=
| VNone
| VBool (b : bool)
| VInt (z : Z)
| VStr (s : string)
| VList (l : list pyval)
| VDict (d : list (string * pyval)).
#[local] Set Elimination Schemes.

(** [bool(v)] *)
Definition truthy (v : pyval) : bool :=
  match v with
  | VNone => false
  | VBool b => b
  | VInt z => negb (z =? 0)
  | VStr s => negb (s =? "")%string
  | VList l => match l with [] => false | _ => true end
  | VDict d => match d with [] => false | _ => true end
  end.

(** [v == s] for a string literal or a [str] value [s]: only an equal
    [str] compares equal. *)
Definition eq_str (v : pyval) (s : string) : bool :=
  match v with
  | VStr t => (t =? s)%string
  | _ => false
  end.

(** [isinstance(v, str)] *)
Definition is_str (v : pyval) : bool :=
  match v with VStr _ => true | _ => false end.

(** [len(v)] of a value known to be a [str]. *)
Definition str_len (v : pyval) : Z :=
  match v with VStr s => Z.of_nat (String.length s) | _ => 0 end.

(** A [dict] with string keys, and [d.get(k)] ([None] when absent). *)
Definition dict := list (string * pyval).

Fixpoint get (d : dict) (k : string) : pyval :=
  match d with
  | [] => VNone
  | (k', v) :: d' => if (k' =? k)%string then v else get d' k
  end.

(** [bool(x)] for an attribute that is [None] or a [str]. *)
Definition truthy_opt_str (o : option string) : bool :=
  match o with
  | None => false
  | Some s => negb (s =? "")%string
  end.

(** *** [str.lower] and [str.strip] *)

(** Both are given on the characters that the strings of this
    development hold, the code points below 256, where they agree with
    Python character by character.  Beyond them Python has uppercase
    letters that [lower] leaves as they are; no property below speaks
    of the case of a letter. *)

Definition code (c : ascii) : N := N_of_ascii c.

Definition is_upper (c : ascii) : bool :=
  let n := code c in
  ((65 <=? n) && (n <=? 90)
   || (192 <=? n) && (n <=? 222) && negb (n =? 215))%N.

Definition lower_char (c : ascii) : ascii :=
  if is_upper c then ascii_of_N (code c + 32) else c.

Fixpoint lower (s : string) : string :=
  match s with
  | EmptyString => EmptyString
  | String c s' => String (lower_char c) (lower s')
  end.

(** [c.isspace()] *)
Definition is_space (c : ascii) : bool :=
  let n := code c in
  ((9 <=? n) && (n <=? 13) || (28 <=? n) && (n <=? 32)
   || (n =? 133) || (n =? 160))%N.

Fixpoint lstrip (l : list ascii) : list ascii :=
  match l with
  | c :: l' => if is_space c then lstrip l' else l
  | [] => []
  end.

Definition strip (s : string) : string :=
  string_of_list_ascii
    (rev (lstrip (rev (lstrip (list_ascii_of_string s))))).

Definition is_ascii (s : string) : bool :=
  forallb (fun c => (code c <? 128)%N) (list_ascii_of_string s).

End Py.

(* ------------------------------------------------------------------ *)
(** ** Exceptions ([app/exceptions.py]) and results *)

(** The subclasses of [AuthenticationError]. *)
Inductive auth_error : Type :=
| UserNotFound
| UserAlreadyExists
| InvalidCredentials
| InvalidToken
| ExpiredToken
| InactiveUser
| InvalidTokenType
| InvalidResetToken.

(** Every exception below derives from Python's [Exception]. *)
Inductive exn : Type :=
| AuthenticationError (cls : auth_error) (message : string) (status_code : Z)
| NameError (name : string)
| TypeError (message : string)
| LibraryError (message : string).

Definition HTTP_400_BAD_REQUEST : Z := 400.
Definition HTTP_401_UNAUTHORIZED : Z := 401.
Definition HTTP_404_NOT_FOUND : Z := 404.
Definition HTTP_409_CONFLICT : Z := 409.

Definition default_message (d : string) (m : option string) : string :=
  match m with Some s => s | None => d end.

(** Each constructor takes the optional [message] argument of the
    class's [__init__]. *)
Definition UserNotFoundError (message : option string) : exn :=
  AuthenticationError UserNotFound
    (default_message "User not found" message) HTTP_404_NOT_FOUND.

Definition UserAlreadyExistsError (message : option string) : exn :=
  AuthenticationError UserAlreadyExists
    (default_message "User with this email already exists" message)
    HTTP_409_CONFLICT.

Definition InvalidCredentialsError (message : option string) : exn :=
  AuthenticationError InvalidCredentials
    (default_message "Incorrect email or password" message)
    HTTP_401_UNAUTHORIZED.

Definition InvalidTokenError (message : option string) : exn :=
  AuthenticationError InvalidToken
    (default_message "Invalid token" message) HTTP_401_UNAUTHORIZED.

Definition ExpiredTokenError (message : option string) : exn :=
  AuthenticationError ExpiredToken
    (default_message "Token has expired" message) HTTP_401_UNAUTHORIZED.

Definition InactiveUserError (message : option string) : exn :=
  AuthenticationError InactiveUser
    (default_message "User account is inactive" message) HTTP_400_BAD_REQUEST.

Definition InvalidTokenTypeError (message : option string) : exn :=
  AuthenticationError InvalidTokenType
    (default_message "Invalid token type" message) HTTP_401_UNAUTHORIZED.

Definition InvalidResetTokenError (message : option string) : exn :=
  AuthenticationError InvalidResetToken
    (default_message "Invalid or expired reset token" message)
    HTTP_400_BAD_REQUEST.

Inductive result (A : Type) : Type :=
| Ok (a : A)
| Raise (e : exn).
Arguments Ok {A} a.
Arguments Raise {A} e.

Definition rbind {A B} (r : result A) (k : A -> result B) : result B :=
  match r with
  | Ok a => k a
  | Raise e => Raise e
  end.

(** [try: body  except Exception: handler] *)
Definition try_except {A} (body : result A) (handler : exn -> result A)
  : result A :=
  match body with
  | Ok a => Ok a
  | Raise e => handler e
  end.

Notation "x <-r c ;; k" := (rbind c (fun x => k))
  (at level 61, c at next level, right associativity).

(** [secrets.compare_digest] on two [str]: a [TypeError] unless both are
    ASCII, else their equality. *)
Definition compare_digest (a b : string) : result bool :=
  if Py.is_ascii a && Py.is_ascii b then Ok (a =? b)%string
  else Raise (TypeError
    "comparing strings with non-ASCII characters is not supported").

(** Names bound at the top level of a module.  Evaluating a free name
    that is not bound there (nor a builtin) raises [NameError]. *)
Definition namespace := list string.

Definition global (g : namespace) (name : string) : result unit :=
  if existsb (String.eqb name) g then Ok tt
  else Raise (NameError name).

(* ------------------------------------------------------------------ *)
(** ** Settings and the [fastapi_core] interface *)

Record SecuritySettings : Type := {
  access_token_expires_minutes : Z
}.

Record AppSettings : Type := {
  environment : string
}.

Record Settings : Type := {
  security : SecuritySettings;
  app : AppSettings;
  frontend_url : string
}.

(** The functions imported from [fastapi_core].  Each takes the clock
    reading of the call first.  [settings] is the argument the call
    sites pass or leave out. *)
Class FastapiCore : Type := {
  verify_password : string -> string -> bool;
  get_password_hash : string -> string;
  create_access_token : Z -> Py.dict -> option Settings -> string;
  create_refresh_token : Z -> Py.dict -> option Settings -> string;
  create_password_reset_token : Z -> Py.dict -> option Settings -> string;
  verify_token : Z -> string -> option Settings -> result Py.dict
}.

(** [EmailStr], the address check that pydantic runs on the [email]
    field of [UserResponse]: a collaborator of the application, as
    [fastapi_core] is. *)
Class Pydantic : Type := {
  email_str : string -> bool
}.

(* ------------------------------------------------------------------ *)
(** ** The account entity ([app/models/user.py]) *)

Module models.

(** A row of the [users] table.  [settings] is the JSONB column as
    text; nullable columns are options. *)
Record User : Type := mkUser {
  id : string;
  email : string;
  name : string;
  hashed_password : string;
  is_active : bool;
  created_at : Z;
  updated_at : option Z;
  reset_token : option string;
  reset_token_expiry : option Z;
  tier : string;
  settings : string
}.

Definition User_eq_dec (a b : User) : {a = b} + {a <> b}.
Proof.
  decide equality;
    try apply string_dec; try apply Z.eq_dec; try apply bool_dec;
    decide equality; try apply string_dec; apply Z.eq_dec.
Defined.

(** [User(email=..., name=...)] as the row reads back once inserted: the
    column defaults ([id], [is_active], [tier], [settings],
    [created_at]) are filled in, [new_id] being the freshly drawn ULID
    and [now] the server's clock; the password hash is still unset. *)
Definition new (new_id : string) (now : Z) (email name : string) : User :=
  {| id := new_id; email := email; name := name;
     hashed_password := ""; is_active := true;
     created_at := now; updated_at := None;
     reset_token := None; reset_token_expiry := None;
     tier := "free"; settings := "{}" |}.

(** The names bound at module level in [user.py]: its imports, and the
    class it defines. *)
Definition module_globals : namespace :=
  [ "secrets"; "datetime"; "Any"; "Dict"; "TYPE_CHECKING";
    "Boolean"; "Column"; "DateTime"; "String"; "Text"; "func";
    "JSONB"; "relationship"; "ULID";
    "verify_password"; "get_password_hash";
    "Base"; "User" ].

Section Methods.
Context {fc : FastapiCore}.

Definition verify_password (self : User) (password : string) : bool :=
  verify_password password (hashed_password self).

Definition set_password (self : User) (password : string) : User :=
  {| id := id self; email := email self; name := name self;
     hashed_password := get_password_hash password;
     is_active := is_active self;
     created_at := created_at self; updated_at := updated_at self;
     reset_token := reset_token self;
     reset_token_expiry := reset_token_expiry self;
     tier := tier self; settings := settings self |}.

Definition set_reset_token (self : User) (token : string) (expiry : Z)
  : User :=
  {| id := id self; email := email self; name := name self;
     hashed_password := hashed_password self;
     is_active := is_active self;
     created_at := created_at self; updated_at := updated_at self;
     reset_token := Some token;
     reset_token_expiry := Some expiry;
     tier := tier self; settings := settings self |}.

Definition clear_reset_token (self : User) : User :=
  {| id := id self; email := email self; name := name self;
     hashed_password := hashed_password self;
     is_active := is_active self;
     created_at := created_at self; updated_at := updated_at self;
     reset_token := None;
     reset_token_expiry := None;
     tier := tier self; settings := settings self |}.

(** The body of [is_reset_token_valid], run in a module whose top-level
    names are [g].  The free names of the body are [verify_token] and
    [secrets]; [str] is a builtin.  Where [g] binds [verify_token] it is
    the function of [fastapi_core]; the body calls it with the token
    alone.  Every exception raised inside the [try] is caught. *)
Definition is_reset_token_valid_in (g : namespace) (now : Z)
    (self : User) (token : string) : result bool :=
  match reset_token self with
  | None => Ok false
  | Some stored =>
    if negb (Py.truthy_opt_str (Some stored)) then Ok false
    else
      try_except
        (_ <-r global g "verify_token" ;;
         payload <-r verify_token now token None ;;
         if negb (Py.eq_str (Py.get payload "type") "password_reset")
         then Ok false
         else
           _ <-r global g "secrets" ;;
           same <-r compare_digest stored token ;;
           if negb same then Ok false
           else if negb (Py.eq_str (Py.get payload "sub") (id self))
           then Ok false
           else Ok true)
        (fun _ => Ok false)
  end.

(** [User.is_reset_token_valid], in the module as it is written. *)
Definition is_reset_token_valid : Z -> User -> string -> result bool :=
  is_reset_token_valid_in module_globals.


End Methods.
End models.

(* ------------------------------------------------------------------ *)
(** ** The SQLAlchemy session ([app/database.py]) *)

(** [rows] is the committed content of the [users] table, [objs] the
    same rows as the session holds them: attribute assignments and
    [add] change [objs] only, [commit] writes [objs] to [rows].  A
    request starts from [open_session]; what is not committed when the
    request ends is dropped by [close]. *)
Record Session : Type := {
  rows : list models.User;
  objs : list models.User
}.

Definition open_session (table : list models.User) : Session :=
  {| rows := table; objs := table |}.

Definition close (db : Session) : list models.User := rows db.

(** Computations over the session that may raise. *)
Definition M (A : Type) : Type := Session -> result A * Session.

Definition ret {A} (a : A) : M A := fun db => (Ok a, db).

Definition raise {A} (e : exn) : M A := fun db => (Raise e, db).

Definition bind {A B} (m : M A) (k : A -> M B) : M B :=
  fun db =>
    match m db with
    | (Ok a, db') => k a db'
    | (Raise e, db') => (Raise e, db')
    end.

Definition lift {A} (r : result A) : M A := fun db => (r, db).

Notation "x <- c ;; k" := (bind c (fun x => k))
  (at level 61, c at next level, right associativity).
Notation "c ;;; k" := (bind c (fun _ => k))
  (at level 61, right associativity).

(** [db.query(User).filter(p).first()] *)
Definition query_first (p : models.User -> bool) : M (option models.User) :=
  fun db => (Ok (find p (objs db)), db).

(** [db.query(User).filter(p).all()] *)
Definition query_all (p : models.User -> bool) : M (list models.User) :=
  fun db => (Ok (filter p (objs db)), db).

(** [db.add(user)] *)
Definition add (u : models.User) : M unit :=
  fun db => (Ok tt, {| rows := rows db; objs := objs db ++ [u] |}).

(** An attribute assignment on a loaded object: the session's object
    with that primary key now reads [u]. *)
Definition assign (u : models.User) : M models.User :=
  fun db =>
    (Ok u,
     {| rows := rows db;
        objs := map (fun o => if (models.id o =? models.id u)%string
                              then u else o) (objs db) |}).

Definition set_updated_at (u : models.User) (t : option Z) : models.User :=
  {| models.id := models.id u; models.email := models.email u;
     models.name := models.name u;
     models.hashed_password := models.hashed_password u;
     models.is_active := models.is_active u;
     models.created_at := models.created_at u; models.updated_at := t;
     models.reset_token := models.reset_token u;
     models.reset_token_expiry := models.reset_token_expiry u;
     models.tier := models.tier u; models.settings := models.settings u |}.

(** What the flush writes for one object: a row that changed gets
    [updated_at = now] ([onupdate=func.now()]). *)
Definition flush_row (now : Z) (old : list models.User) (u : models.User)
  : models.User :=
  match find (fun o => (models.id o =? models.id u)%string) old with
  | Some o => if models.User_eq_dec o u then u
              else set_updated_at u (Some now)
  | None => u
  end.

(** [db.commit()], for the writes that the database accepts.  It
    refuses, with an [IntegrityError], the insert of a key that the
    table already has: the properties of an insert are stated for a
    ULID that is not in the table. *)
Definition commit (now : Z) : M unit :=
  fun db =>
    let written := map (flush_row now (rows db)) (objs db) in
    (Ok tt, {| rows := written; objs := written |}).

(** [db.refresh(user)]: the object as the table has it. *)
Definition refresh (u : models.User) : M models.User :=
  fun db =>
    (Ok match find (fun o => (models.id o =? models.id u)%string) (rows db) with
        | Some o => o
        | None => u
        end, db).

(* ------------------------------------------------------------------ *)
(** ** Response schemas ([app/schemas/auth.py]) *)

Record UserResponse : Type := {
  id : string;
  email : string;
  name : string;
  isActive : bool;
  createdAt : Z;
  tier : string
}.

(** [UserResponse.model_validate(user)] with [from_attributes]:
    [isActive] and [createdAt] are read through their aliases
    [is_active] and [created_at].  This is the view that pydantic
    builds; it refuses, with a [ValidationError], an [email] that is
    not an [EmailStr] (see [view_validates]). *)
Definition model_validate (u : models.User) : UserResponse :=
  {| id := models.id u; email := models.email u; name := models.name u;
     isActive := models.is_active u; createdAt := models.created_at u;
     tier := models.tier u |}.


Record TokenResponse : Type := {
  tr_accessToken : string;
  tr_refreshToken : string;
  tr_tokenType : string;
  tr_expiresIn : Z
}.

Record LoginResponse : Type := {
  user : UserResponse;
  accessToken : string;
  refreshToken : string;
  tokenType : string;
  expiresIn : Z
}.

Record MessageResponse : Type := {
  message : string
}.

(* ------------------------------------------------------------------ *)
(** ** The service ([app/services/auth_service.py]) *)

Module AuthService.
Section Service.
Context {fc : FastapiCore}.

(** The module-level [settings] object of [app/settings.py]. *)
Variable settings : Settings.

(** [email.lower().strip()] *)
Definition normalize (email : string) : string :=
  Py.strip (Py.lower email).

(** The claims [{"sub": user.id}]. *)
Definition sub_claims (u : models.User) : Py.dict :=
  [ ("sub", Py.VStr (models.id u)) ].

Definition _create_login_response (now : Z) (u : models.User)
  : LoginResponse :=
  let access_token := create_access_token now (sub_claims u) (Some settings) in
  let refresh_token :=
    create_refresh_token now (sub_claims u) (Some settings) in
  {| user := model_validate u;
     accessToken := access_token;
     refreshToken := refresh_token;
     tokenType := "bearer";
     expiresIn := access_token_expires_minutes (security settings) * 60 |}.

Definition register_user (now : Z) (new_id : string)
    (email password name : string) : M LoginResponse :=
  let normalized_email := normalize email in
  existing_user <-
    query_first (fun u => (models.email u =? normalized_email)%string) ;;
  match existing_user with
  | Some _ => raise (UserAlreadyExistsError None)
  | None =>
    let u := models.new new_id now normalized_email name in
    let u := models.set_password u password in
    add u ;;;
    commit now ;;;
    u <- refresh u ;;
    ret (_create_login_response now u)
  end.

Definition authenticate_user (now : Z) (email password : string)
  : M LoginResponse :=
  let normalized_email := normalize email in
  found <-
    query_first (fun u => (models.email u =? normalized_email)%string) ;;
  match found with
  | None => raise (InvalidCredentialsError None)
  | Some u =>
    if negb (models.verify_password u password)
    then raise (InvalidCredentialsError None)
    else if negb (models.is_active u)
    then raise (InactiveUserError None)
    else ret (_create_login_response now u)
  end.

Definition refresh_tokens (now : Z) (refresh_token : string)
  : M TokenResponse :=
  payload <- lift (verify_token now refresh_token (Some settings)) ;;
  if negb (Py.eq_str (Py.get payload "type") "refresh")
  then raise (InvalidTokenTypeError None)
  else
    let user_id := Py.get payload "sub" in
    if negb (Py.truthy user_id)
    then raise (InvalidTokenError (Some "Invalid token payload"))
    else if negb (Py.is_str user_id) || negb (Py.str_len user_id =? 26)
    then raise (InvalidTokenError (Some "Invalid user ID format in token"))
    else
      found <- query_first (fun u => Py.eq_str user_id (models.id u)) ;;
      match found with
      | None => raise (UserNotFoundError None)
      | Some u =>
        if negb (models.is_active u)
        then raise (InactiveUserError None)
        else
          let new_access_token :=
            create_access_token now (sub_claims u) None in
          let new_refresh_token :=
            create_refresh_token now (sub_claims u) None in
          ret {| tr_accessToken := new_access_token;
                 tr_refreshToken := new_refresh_token;
                 tr_tokenType := "bearer";
                 tr_expiresIn :=
                   access_token_expires_minutes (security settings) * 60 |}
      end.

(** [token_blacklist.add(access_token)] on the process-wide blacklist. *)
Definition logout_user (access_token : string) (u : models.User)
    (token_blacklist : list string) : list string :=
  access_token :: token_blacklist.

Definition get_user_profile (u : models.User) : UserResponse :=
  model_validate u.

Definition request_password_reset (now : Z) (email : string)
  : M (option string) :=
  let normalized_email := normalize email in
  found <-
    query_first (fun u => (models.email u =? normalized_email)%string) ;;
  match found with
  | None => ret None
  | Some u =>
    if negb (models.is_active u) then ret None
    else
      let token :=
        create_password_reset_token now (sub_claims u) (Some settings) in
      _ <- assign (models.set_reset_token u token (now + 3600)) ;;
      commit now ;;;
      ret (Some token)
  end.

(** The [for user in users] loop of [reset_password], with the [raise]
    that follows it. *)
Fixpoint reset_password_scan (now : Z) (token new_password : string)
    (users : list models.User) : M bool :=
  match users with
  | [] => raise (InvalidResetTokenError None)
  | u :: rest =>
    valid <- lift (models.is_reset_token_valid now u token) ;;
    if valid then
      u <- assign (models.set_password u new_password) ;;
      _ <- assign (models.clear_reset_token u) ;;
      commit now ;;;
      ret true
    else reset_password_scan now token new_password rest
  end.

Definition reset_password (now : Z) (token new_password : string)
  : M bool :=
  users <- query_all (fun u => match models.reset_token u with
                               | Some _ => true
                               | None => false
                               end) ;;
  reset_password_scan now token new_password users.

Definition change_password (now : Z)
    (user_id current_password new_password : string) : M bool :=
  found <- query_first (fun u => (models.id u =? user_id)%string) ;;
  match found with
  | None => raise (UserNotFoundError None)
  | Some u =>
    if negb (models.is_active u) then raise (InactiveUserError None)
    else if negb (models.verify_password u current_password)
    then raise (InvalidCredentialsError
                  (Some "Current password is incorrect"))
    else
      _ <- assign (models.set_password u new_password) ;;
      commit now ;;;
      ret true
  end.

(** [random_password] is the value drawn by [secrets.token_urlsafe(32)]. *)
Definition authenticate_with_google (now : Z)
    (new_id random_password : string) (email name google_id : string)
  : M LoginResponse :=
  let normalized_email := normalize email in
  found <-
    query_first (fun u => (models.email u =? normalized_email)%string) ;;
  u <- match found with
       | Some u => ret u
       | None =>
         let u := models.new new_id now normalized_email name in
         let u := models.set_password u random_password in
         add u ;;;
         commit now ;;;
         refresh u
       end ;;
  if negb (models.is_active u) then raise (InactiveUserError None)
  else ret (_create_login_response now u).

(** The [forgot_password] endpoint of [app/api/v1/auth.py]: the response
    and the lines given to [logger.info]. *)
Definition forgot_password (now : Z) (email : string)
  : M (MessageResponse * list string) :=
  token <- request_password_reset now email ;;
  let logged :=
    match token with
    | Some t =>
      if negb (t =? "")%string
         && (environment (app settings) =? "development")%string
      then [ "Password reset link for " ++ email ++ ": "
             ++ frontend_url settings ++ "/reset-password/" ++ t ]
      else []
    | None => []
    end in
  ret ({| message :=
            "If the email exists, a password reset link has been sent" |},
       logged).

End Service.
End AuthService.

(* ------------------------------------------------------------------ *)
(** ** Requests to the core *)

(** One request: the operation, its arguments, and what the request
    reads from its surroundings (the clock, the drawn ULID, the drawn
    password).  [run] gives the effect of a request on the session; the
    blacklist that [Logout] extends is kept by [fastapi_core], outside
    the session (see [AuthService.logout_user]). *)
Inductive call : Type :=
| Register (now : Z) (new_id : string) (email password name : string)
| Login (now : Z) (email password : string)
| Refresh (now : Z) (refresh_token : string)
| Logout (access_token : string) (u : models.User)
| GetProfile (u : models.User)
| ForgotPassword (now : Z) (email : string)
| RequestPasswordReset (now : Z) (email : string)
| ResetPassword (now : Z) (token new_password : string)
| ChangePassword (now : Z) (user_id current_password new_password : string)
| GoogleLogin (now : Z) (new_id random_password : string)
    (email name google_id : string).

Inductive response : Type :=
| RLogin (r : LoginResponse)
| RToken (r : TokenResponse)
| RUser (r : UserResponse)
| RMessage (r : MessageResponse)
| RReset (token : option string)
| RDone (b : bool).

Definition fmap {A B} (f : A -> B) (m : M A) : M B :=
  a <- m ;; ret (f a).

Section Run.
Context {fc : FastapiCore}.
Variable settings : Settings.

Definition run (c : call) : M response :=
  match c with
  | Register now new_id email password name =>
    fmap RLogin (AuthService.register_user settings now new_id
                   email password name)
  | Login now email password =>
    fmap RLogin (AuthService.authenticate_user settings now email password)
  | Refresh now refresh_token =>
    fmap RToken (AuthService.refresh_tokens settings now refresh_token)
  | Logout access_token u =>
    ret (RMessage {| message := "Successfully logged out" |})
  | GetProfile u =>
    ret (RUser (AuthService.get_user_profile u))
  | ForgotPassword now email =>
    fmap (fun r => RMessage (fst r))
         (AuthService.forgot_password settings now email)
  | RequestPasswordReset now email =>
    fmap RReset (AuthService.request_password_reset settings now email)
  | ResetPassword now token new_password =>
    fmap RDone (AuthService.reset_password now token new_password)
  | ChangePassword now user_id current_password new_password =>
    fmap RDone (AuthService.change_password now user_id
                  current_password new_password)
  | GoogleLogin now new_id random_password email name google_id =>
    fmap RLogin (AuthService.authenticate_with_google settings now new_id
                   random_password email name google_id)
  end.

(** A request on a table: open a session, run, close. *)
Definition serve (c : call) (table : list models.User)
  : result response * list models.User :=
  let out := run c (open_session table) in
  (fst out, close (snd out)).

End Run.

(** The mutating operations named by the error-handling policy:
    register, requestPasswordReset, resetPassword, changePassword. *)
Definition mutating (c : call) : bool :=
  match c with
  | Register _ _ _ _ _ | RequestPasswordReset _ _
  | ResetPassword _ _ _ | ChangePassword _ _ _ _ => true
  | _ => false
  end.

(* ------------------------------------------------------------------ *)
(** ** A small codec to run the service on concrete inputs *)

(** Modelled from the spec: the hashing and token primitives of
    [fastapi_core], which the application imports and whose code is not
    part of it.  The spec names them as black boxes, hash(password),
    verify(password, hash), sign(claims, expiry) and decode(token)
    giving the claims or a failure, a token carrying a subject id, a
    type tag and an expiry, the expiry of an access token being the
    instant of the call plus the configured access lifetime.
    [Sample.core] is one such codec, with readable tokens, configured
    by [Sample.settings]. *)
Module Sample.

Definition settings : Settings :=
  {| security := {| access_token_expires_minutes := 30 |};
     app := {| environment := "production" |};
     frontend_url := "http://localhost:3000" |}.

Definition decimal (z : Z) : string := NilZero.string_of_int (Z.to_int z).

Definition parse_decimal (s : string) : option Z :=
  option_map Z.of_int (NilZero.int_of_string s).

(** Splits at the first colon. *)
Fixpoint split_colon (s : string) : option (string * string) :=
  match s with
  | EmptyString => None
  | String c s' =>
    if (c =? ":")%char then Some (EmptyString, s')
    else match split_colon s' with
         | Some (a, b) => Some (String c a, b)
         | None => None
         end
  end.

(** A token is [type:expiry:subject]. *)
Definition sign (type : string) (ttl now : Z) (data : Py.dict) : string :=
  let sub := match Py.get data "sub" with Py.VStr s => s | _ => "" end in
  type ++ ":" ++ decimal (now + ttl) ++ ":" ++ sub.

Definition decode (now : Z) (token : string) : result Py.dict :=
  match split_colon token with
  | Some (type, rest) =>
    match split_colon rest with
    | Some (exp, sub) =>
      match parse_decimal exp with
      | Some e =>
        if e <=? now then Raise (LibraryError "Token has expired")
        else Ok [ ("sub", Py.VStr sub); ("type", Py.VStr type);
                  ("exp", Py.VInt e) ]
      | None => Raise (LibraryError "Invalid token")
      end
    | None => Raise (LibraryError "Invalid token")
    end
  | None => Raise (LibraryError "Invalid token")
  end.

(** The lifetime of an access token: the configured one, read from the
    settings the call passes, and from the configuration of the codec
    when the call passes none. *)
Definition access_ttl (given : option Settings) : Z :=
  match given with
  | Some s => access_token_expires_minutes (security s) * 60
  | None => access_token_expires_minutes (security settings) * 60
  end.

Definition core : FastapiCore :=
  {| verify_password := fun password hash =>
       (hash =? "hash$" ++ password)%string;
     get_password_hash := fun password => "hash$" ++ password;
     create_access_token := fun now data given =>
       sign "access" (access_ttl given) now data;
     create_refresh_token := fun now data _ =>
       sign "refresh" 604800 now data;
     create_password_reset_token := fun now data _ =>
       sign "password_reset" 3600 now data;
     verify_token := fun now token _ => decode now token |}.

Definition alice_id : string := "01HZX3KQ9R8T7V6W5Y4A3B2C1D".

Definition alice : models.User :=
  {| models.id := alice_id; models.email := "alice@example.com";
     models.name := "Alice"; models.hashed_password := "hash$Passw0rd!";
     models.is_active := true; models.created_at := 1000;
     models.updated_at := None; models.reset_token := None;
     models.reset_token_expiry := None;
     models.tier := "free"; models.settings := "{}" |}.

Definition bob : models.User :=
  {| models.id := "01HZX3KQ9R8T7V6W5Y4A3B2C1E";
     models.email := "bob@example.com";
     models.name := "Bob"; models.hashed_password := "hash$S3cret!pw";
     models.is_active := false; models.created_at := 1100;
     models.updated_at := None; models.reset_token := None;
     models.reset_token_expiry := None;
     models.tier := "pro"; models.settings := "{}" |}.

Definition table : list models.User := [alice; bob].

(** The reset token [request_password_reset] issues to alice at 5000,
    and the table once it is stored. *)
Definition alice_token : string :=
  "password_reset:8600:01HZX3KQ9R8T7V6W5Y4A3B2C1D".

Definition table_after_request : list models.User :=
  snd (@serve core settings (RequestPasswordReset 5000 "Alice@Example.com ")
         table).

(** An address check for the sample table: an [@] that is neither the
    first nor the last character. *)
Definition pydantic : Pydantic :=
  {| email_str := fun s =>
       match index 0 "@" s with
       | Some (S n) => (S (S n) <? String.length s)%nat
       | _ => false
       end |}.

(** Alice's row in that table. *)
Definition alice_after_request : models.User :=
  set_updated_at (models.set_reset_token alice alice_token 8600) (Some 5000).

End Sample.

(* ------------------------------------------------------------------ *)
(** ** Predicates used to state the properties *)

(** Two account states that differ at most in [reset_token_expiry]. *)
Definition differ_only_in_expiry (u1 u2 : models.User) : Prop :=
  models.id u1 = models.id u2 /\
  models.email u1 = models.email u2 /\
  models.name u1 = models.name u2 /\
  models.hashed_password u1 = models.hashed_password u2 /\
  models.is_active u1 = models.is_active u2 /\
  models.created_at u1 = models.created_at u2 /\
  models.updated_at u1 = models.updated_at u2 /\
  models.reset_token u1 = models.reset_token u2 /\
  models.tier u1 = models.tier u2 /\
  models.settings u1 = models.settings u2.

(** One of the conditions of the reset-token check fails: no token is
    stored, the candidate does not decode to a payload of type
    [password_reset], the decoded subject is not the account's id, or
    the candidate is not the stored token. *)
Definition some_condition_fails {fc : FastapiCore} (now : Z)
    (self : models.User) (token : string) : Prop :=
  models.reset_token self = None
  \/ (forall payload, verify_token now token None = Ok payload ->
      Py.eq_str (Py.get payload "type") "password_reset" = false)
  \/ (forall payload, verify_token now token None = Ok payload ->
      Py.eq_str (Py.get payload "sub") (models.id self) = false)
  \/ models.reset_token self <> Some token.

(** The subject of a payload when it is a string of 26 characters. *)
Definition well_formed_subject (v : Py.pyval) : option string :=
  match v with
  | Py.VStr s => if Z.of_nat (String.length s) =? 26 then Some s else None
  | _ => None
  end.

(** Every row of the table with id [uid] (there is one) holds [token]
    with [expiry]. *)
Definition holds_reset_token (table : list models.User) (uid : string)
    (token : string) (expiry : Z) : Prop :=
  (exists o, In o table /\ models.id o = uid) /\
  forall o, In o table -> models.id o = uid ->
    models.reset_token o = Some token /\
    models.reset_token_expiry o = Some expiry.

(** The token [request_password_reset] signs for [u] at [now]. *)
Definition issued_token {fc : FastapiCore} (settings : Settings)
    (now : Z) (u : models.User) : string :=
  create_password_reset_token now [("sub", Py.VStr (models.id u))]
    (Some settings).

(** The reset token and its expiry are both present or both absent. *)
Definition reset_fields_paired (u : models.User) : bool :=
  match models.reset_token u, models.reset_token_expiry u with
  | Some _, Some _ => true
  | None, None => true
  | _, _ => false
  end.

Definition all_paired (l : list models.User) : Prop :=
  Forall (fun u => reset_fields_paired u = true) l.

Definition session_paired (db : Session) : Prop :=
  all_paired (rows db) /\ all_paired (objs db).

(** A sequence of requests, each in its own session. *)
Fixpoint serve_all {fc : FastapiCore} (settings : Settings)
    (calls : list call) (table : list models.User) : list models.User :=
  match calls with
  | [] => table
  | c :: rest => serve_all settings rest (snd (serve settings c table))
  end.


(** Unfolds the session operations. *)
Ltac unfold_session :=
  unfold fmap, bind, ret, raise, lift, query_first, query_all, add,
    assign, commit, refresh in *.

(** Closes a goal on an outcome that is either not a failure or the
    failure of a documented class. *)
Ltac documented :=
  let H := fresh "Hraise" in
  intros H;
  first
    [ discriminate H
    | cbv [UserNotFoundError UserAlreadyExistsError InvalidCredentialsError
           InvalidTokenError ExpiredTokenError InactiveUserError
           InvalidTokenTypeError InvalidResetTokenError] in H;
      inversion H; subst; right;
      split; [simpl; tauto | split; reflexivity] ].

(* ------------------------------------------------------------------ *)
(** ** Bearer authentication ([app/dependencies.py]) *)

Module dependencies.

(** What [HTTPBearer] hands over: the scheme and the token of the
    [Authorization] header. *)
Record HTTPAuthorizationCredentials : Type := {
  scheme : string;
  credentials : string
}.

Section Dependencies.
Context {fc : FastapiCore}.
Variable settings : Settings.

Definition get_current_user (now : Z)
    (cred : HTTPAuthorizationCredentials) : M models.User :=
  if negb (Py.lower (scheme cred) =? "bearer")%string
  then raise (InvalidTokenError (Some "Invalid authentication scheme"))
  else
    payload <- lift (verify_token now (credentials cred) (Some settings)) ;;
    let user_id := Py.get payload "sub" in
    if negb (Py.truthy user_id)
    then raise (InvalidTokenError (Some "Invalid token payload"))
    else if negb (Py.is_str user_id) || negb (Py.str_len user_id =? 26)
    then raise (InvalidTokenError (Some "Invalid user ID format in token"))
    else
      found <- query_first (fun u => Py.eq_str user_id (models.id u)) ;;
      match found with
      | None => raise (UserNotFoundError None)
      | Some u =>
        if negb (models.is_active u) then raise (InactiveUserError None)
        else ret u
      end.

(** [current_user] is resolved by [Depends(get_current_user)]. *)
Definition get_current_active_user (now : Z)
    (cred : HTTPAuthorizationCredentials) : M models.User :=
  current_user <- get_current_user now cred ;;
  ret current_user.

End Dependencies.
End dependencies.

(* ------------------------------------------------------------------ *)
(** ** The exception handler ([app/exceptions.py]) *)

Module exceptions.

Record JSONResponse : Type := {
  status_code : Z;
  content : Py.dict;
  headers : list (string * string)
}.

(** The handler is written for an [AuthenticationError]; it has no
    answer ([None]) for another exception. *)
Definition authentication_exception_handler (exc : exn)
  : option JSONResponse :=
  match exc with
  | AuthenticationError _ message status_code =>
    let headers :=
      if status_code =? 401 then [ ("WWW-Authenticate", "Bearer") ]
      else [] in
    Some {| status_code := status_code;
            content := [ ("detail", Py.VStr message) ];
            headers := headers |}
  | _ => None
  end.

End exceptions.

(* ------------------------------------------------------------------ *)
(** ** Password fields of the request schemas ([app/schemas/auth.py]) *)

Module schemas.

(** Why a field is refused: one of the length bounds of [Field], or the
    [ValueError] of the field validator. *)
Inductive field_error : Type :=
| string_too_short
| string_too_long
| value_error (msg : string).

Inductive validation : Type :=
| Valid (v : string)
| Invalid (e : field_error).

(** [re.search(cls, v)] for a pattern that is one character class. *)
Definition search (cls : ascii -> bool) (v : string) : bool :=
  existsb cls (list_ascii_of_string v).

(** [[A-Z]] *)
Definition upper_class (c : ascii) : bool :=
  ((65 <=? Py.code c) && (Py.code c <=? 90))%N.

(** [[a-z]] *)
Definition lower_class (c : ascii) : bool :=
  ((97 <=? Py.code c) && (Py.code c <=? 122))%N.

(** [\d]: below code point 256 the decimal digits are [0] to [9]. *)
Definition digit_class (c : ascii) : bool :=
  ((48 <=? Py.code c) && (Py.code c <=? 57))%N.

Definition double_quote : ascii := ascii_of_N 34.

(** The characters of the class of special characters: those of the
    two strings, and the double quote between them. *)
Definition special_chars : list ascii :=
  list_ascii_of_string "!@#$%^&*(),.?" ++ [double_quote]
  ++ list_ascii_of_string ":{}|<>".

Definition special_class (c : ascii) : bool :=
  existsb (Ascii.eqb c) special_chars.

(** The validator [validate_password_strength], the same in
    [UserRegister], [ResetPasswordRequest] and [ChangePasswordRequest]. *)
Definition validate_password_strength (v : string) : validation :=
  if negb (search upper_class v)
  then Invalid (value_error
         "Password must contain at least one uppercase letter")
  else if negb (search lower_class v)
  then Invalid (value_error
         "Password must contain at least one lowercase letter")
  else if negb (search digit_class v)
  then Invalid (value_error "Password must contain at least one digit")
  else if negb (search special_class v)
  then Invalid (value_error
         ("Password must contain at least one special character ("
          ++ string_of_list_ascii special_chars ++ ")"))
  else Valid v.

(** [Field(..., min_length=8, max_length=100)] followed by the
    validator, which runs on a value that passed the bounds: the
    [password] of [UserRegister] and the [newPassword] of
    [ResetPasswordRequest] and [ChangePasswordRequest]. *)
Definition new_password_field (v : string) : validation :=
  if (String.length v <? 8)%nat then Invalid string_too_short
  else if (100 <? String.length v)%nat then Invalid string_too_long
  else validate_password_strength v.

End schemas.

(* ------------------------------------------------------------------ *)
(** ** Endpoints that resolve the current user ([app/api/v1/auth.py]) *)

Module api.
Section Endpoints.
Context {fc : FastapiCore}.
Variable settings : Settings.

(** [change_password], for a request body that passed validation:
    [current_user] comes from [CurrentActiveUser], on the session of the
    request. *)
Definition change_password (now : Z)
    (cred : dependencies.HTTPAuthorizationCredentials)
    (currentPassword newPassword : string) : M MessageResponse :=
  current_user <- dependencies.get_current_active_user settings now cred ;;
  _ <- AuthService.change_password now (models.id current_user)
         currentPassword newPassword ;;
  ret {| message := "Password has been successfully changed" |}.

(** [get_current_user_info] *)
Definition get_current_user_info (now : Z)
    (cred : dependencies.HTTPAuthorizationCredentials) : M UserResponse :=
  current_user <- dependencies.get_current_active_user settings now cred ;;
  ret (AuthService.get_user_profile current_user).

End Endpoints.
End api.

(* ------------------------------------------------------------------ *)
(** ** Predicates on the table *)

(** Primary keys and emails are unique ([primary_key], [unique]). *)
Definition unique_keys (table : list models.User) : Prop :=
  NoDup (map models.id table) /\ NoDup (map models.email table).

(** Every stored email is in normal form. *)
Definition emails_normalized (table : list models.User) : Prop :=
  Forall (fun u => AuthService.normalize (models.email u) = models.email u)
         table.

(** The status each exception class of [app/exceptions.py] passes to
    [AuthenticationError.__init__]. *)
Definition status_of (cls : auth_error) : Z :=
  match cls with
  | UserNotFound => HTTP_404_NOT_FOUND
  | UserAlreadyExists => HTTP_409_CONFLICT
  | InvalidCredentials => HTTP_401_UNAUTHORIZED
  | InvalidToken => HTTP_401_UNAUTHORIZED
  | ExpiredToken => HTTP_401_UNAUTHORIZED
  | InactiveUser => HTTP_400_BAD_REQUEST
  | InvalidTokenType => HTTP_401_UNAUTHORIZED
  | InvalidResetToken => HTTP_400_BAD_REQUEST
  end.

(** The exception classes under [Raises:] in the docstring of the
    service function behind each request. *)
Definition documented_raises (c : call) : list auth_error :=
  match c with
  | Register _ _ _ _ _ => [ UserAlreadyExists ]
  | Login _ _ _ => [ InvalidCredentials; InactiveUser ]
  | Refresh _ _ =>
    [ InvalidToken; InvalidTokenType; UserNotFound; InactiveUser ]
  | Logout _ _ => []
  | GetProfile _ => []
  | ForgotPassword _ _ => []
  | RequestPasswordReset _ _ => []
  | ResetPassword _ _ _ => [ InvalidResetToken ]
  | ChangePassword _ _ _ _ =>
    [ InvalidCredentials; UserNotFound; InactiveUser ]
  | GoogleLogin _ _ _ _ _ _ => [ InactiveUser ]
  end.

(** The answer of the exception handler to an exception of class [cls]
    with message [msg]. *)
Definition answer (cls : auth_error) (msg : string)
  : exceptions.JSONResponse :=
  {| exceptions.status_code := status_of cls;
     exceptions.content := [ ("detail", Py.VStr msg) ];
     exceptions.headers :=
       if status_of cls =? 401 then [ ("WWW-Authenticate", "Bearer") ]
       else [] |}.

(** The ULID a request draws, when it draws one. *)
Definition drawn_id (c : call) : option string :=
  match c with
  | Register _ new_id _ _ _ => Some new_id
  | GoogleLogin _ new_id _ _ _ _ => Some new_id
  | _ => None
  end.

(** The drawn ULID is not the key of a row of the table. *)
Definition draws_fresh_id (c : call) (table : list models.User) : Prop :=
  match drawn_id c with
  | Some new_id => ~ In new_id (map models.id table)
  | None => True
  end.

(** [u'] is [u] but for [updated_at], which is as before or is [now]. *)
Definition touched (now : Z) (u u' : models.User) : Prop :=
  set_updated_at u' (models.updated_at u) = u /\
  (models.updated_at u' = models.updated_at u
   \/ models.updated_at u' = Some now).

(** The account [register_user] builds before it inserts it. *)
Definition new_account {fc : FastapiCore} (new_id : string) (now : Z)
    (email password name : string) : models.User :=
  models.set_password
    (models.new new_id now (AuthService.normalize email) name) password.

(** The rows of the table with the given normalized email: the filter
    of the lookups by email. *)
Definition has_email (email : string) (a : models.User) : bool :=
  (models.email a =? AuthService.normalize email)%string.

(** The table with every row of key [uid] replaced by [u']. *)
Definition replace_row (uid : string) (u' : models.User)
    (table : list models.User) : list models.User :=
  map (fun o => if (models.id o =? uid)%string then u' else o) table.

(** The characters of [strip s], from those of [s]. *)
Definition strip_chars (l : list ascii) : list ascii :=
  rev (Py.lstrip (rev (Py.lstrip l))).

(** [UserResponse.model_validate(u)] raises no [ValidationError]: the
    email of the account is an [EmailStr] (the other fields of the view
    hold values of their declared types). *)
Definition view_validates {py : Pydantic} (u : models.User) : bool :=
  email_str (models.email u).

(** The string neither starts nor ends with whitespace. *)
Definition no_outer_space (s : string) : bool :=
  match list_ascii_of_string s with
  | [] => true
  | c :: _ => negb (Py.is_space c)
  end
  && match rev (list_ascii_of_string s) with
     | [] => true
     | c :: _ => negb (Py.is_space c)
     end.

(* ------------------------------------------------------------------ *)
(** ** The reset-token check *)

Section ResetTokenCheck.
Context {fc : FastapiCore}.

Lemma compare_digest_true (a b : string) :
  compare_digest a b = Ok true -> a = b.
Proof.
  unfold compare_digest.
  destruct (Py.is_ascii a && Py.is_ascii b); [|discriminate].
  intros H. injection H as H. now apply String.eqb_eq.
Qed.

(** Whatever names the module binds, the check returns a boolean. *)
Lemma is_reset_token_valid_in_total (g : namespace) (now : Z)
    (self : models.User) (token : string) :
  exists b, models.is_reset_token_valid_in g now self token = Ok b.
Proof.
  unfold models.is_reset_token_valid_in.
  destruct (models.reset_token self) as [stored|]; [|now exists false].
  destruct (negb (Py.truthy_opt_str (Some stored))); [now exists false|].
  unfold try_except.
  match goal with
  | |- exists b, match ?body with _ => _ end = _ =>
    destruct body as [b|e]; [now exists b | now exists false]
  end.
Qed.

(** It answers [True] only when every condition holds. *)
Lemma is_reset_token_valid_in_true (g : namespace) (now : Z)
    (self : models.User) (token : string) :
  models.is_reset_token_valid_in g now self token = Ok true ->
  models.reset_token self = Some token /\
  exists payload,
    verify_token now token None = Ok payload /\
    Py.eq_str (Py.get payload "type") "password_reset" = true /\
    Py.eq_str (Py.get payload "sub") (models.id self) = true.
Proof.
  unfold models.is_reset_token_valid_in.
  destruct (models.reset_token self) as [stored|]; [|discriminate].
  destruct (negb (Py.truthy_opt_str (Some stored))); [discriminate|].
  unfold try_except, rbind.
  destruct (global g "verify_token"); [|discriminate].
  destruct (verify_token now token None) as [payload|]; [|discriminate].
  destruct (Py.eq_str (Py.get payload "type") "password_reset") eqn:Htype;
    simpl; [|discriminate].
  destruct (global g "secrets"); [|discriminate].
  destruct (compare_digest stored token) as [same|] eqn:Hsame;
    [|discriminate].
  destruct same; simpl; [|discriminate].
  destruct (Py.eq_str (Py.get payload "sub") (models.id self)) eqn:Hsub;
    simpl; [|discriminate].
  intros _. apply compare_digest_true in Hsame. subst stored.
  split; [reflexivity|]. exists payload. auto.
Qed.

(** The check reads [reset_token] and [id] only. *)
Lemma is_reset_token_valid_in_reads (g : namespace) (now : Z)
    (u1 u2 : models.User) (token : string) :
  models.reset_token u1 = models.reset_token u2 ->
  models.id u1 = models.id u2 ->
  models.is_reset_token_valid_in g now u1 token
  = models.is_reset_token_valid_in g now u2 token.
Proof.
  intros Htok Hid. unfold models.is_reset_token_valid_in.
  now rewrite Htok, Hid.
Qed.

(** [user.py] does not bind [verify_token]: the call raises [NameError]
    inside the [try], and the handler answers [False]. *)
Lemma is_reset_token_valid_unbound (now : Z) (self : models.User)
    (token : string) :
  models.is_reset_token_valid now self token = Ok false.
Proof.
  unfold models.is_reset_token_valid, models.is_reset_token_valid_in.
  destruct (models.reset_token self) as [stored|]; [|reflexivity].
  destruct (negb (Py.truthy_opt_str (Some stored))); reflexivity.
Qed.

End ResetTokenCheck.

Lemma is_reset_token_valid_in_fails_closed {fc : FastapiCore}
    (g : namespace) (now : Z) (self : models.User) (token : string) :
  exists b,
    models.is_reset_token_valid_in g now self token = Ok b /\
    (some_condition_fails now self token -> b = false).
Proof.
  destruct (is_reset_token_valid_in_total g now self token) as [b Hb].
  exists b. split; [exact Hb|]. intros Hfail.
  destruct b; [|reflexivity]. exfalso.
  apply is_reset_token_valid_in_true in Hb.
  destruct Hb as (Hstored & payload & Hdec & Htype & Hsub).
  destruct Hfail as [H | [H | [H | H]]].
  - congruence.
  - specialize (H payload Hdec). congruence.
  - specialize (H payload Hdec). congruence.
  - contradiction.
Qed.

(** C4. For every account state and every candidate string,
    [is_reset_token_valid] returns a boolean (no exception leaves it),
    and the boolean is [false] whenever one of the conditions fails: no
    reset token is stored, the candidate does not decode to a
    [password_reset] payload, the decoded subject is not the account's
    id, or the candidate is not the stored token. *)
Theorem is_reset_token_valid_fails_closed {fc : FastapiCore}
    (now : Z) (self : models.User) (token : string) :
  exists b,
    models.is_reset_token_valid now self token = Ok b /\
    (some_condition_fails now self token -> b = false).
Proof.
  exact (is_reset_token_valid_in_fails_closed
           models.module_globals now self token).
Qed.

Lemma is_reset_token_valid_fails_closed_witness :
  exists b,
    @models.is_reset_token_valid Sample.core 5060 Sample.alice
      Sample.alice_token = Ok b /\ b = false.
Proof.
  destruct (@is_reset_token_valid_fails_closed Sample.core 5060
              Sample.alice Sample.alice_token) as [b [Hb Hfalse]].
  exists b. split; [exact Hb|]. apply Hfalse. left. reflexivity.
Defined.

(** C10. For two account states that differ only in
    [reset_token_expiry], and every candidate, [is_reset_token_valid]
    gives the same result: the stored expiry is never read. *)
Theorem is_reset_token_valid_ignores_stored_expiry {fc : FastapiCore}
    (now : Z) (u1 u2 : models.User) (token : string) :
  differ_only_in_expiry u1 u2 ->
  models.is_reset_token_valid now u1 token
  = models.is_reset_token_valid now u2 token.
Proof.
  intros (Hid & _ & _ & _ & _ & _ & _ & Htok & _).
  now apply is_reset_token_valid_in_reads.
Qed.

Lemma is_reset_token_valid_ignores_stored_expiry_witness :
  @models.is_reset_token_valid Sample.core 9000
    (models.set_reset_token Sample.alice Sample.alice_token 8600)
    Sample.alice_token
  = @models.is_reset_token_valid Sample.core 9000
      (models.set_reset_token Sample.alice Sample.alice_token 20000)
      Sample.alice_token.
Proof.
  apply (@is_reset_token_valid_ignores_stored_expiry Sample.core).
  unfold differ_only_in_expiry. simpl. repeat split; reflexivity.
Defined.

(* ------------------------------------------------------------------ *)
(** ** Login and refresh *)

Section LoginRefresh.
Context {fc : FastapiCore}.
Variable settings : Settings.

(** C2. A login for an email that no account has, and a login for an
    existing account with a password that does not verify, raise the
    same exception: [InvalidCredentialsError] with its default message
    and status 401. *)
Theorem login_failures_indistinguishable
    (now1 now2 : Z) (email1 password1 email2 password2 : string)
    (db1 db2 : Session) (u : models.User) :
  find (fun a => (models.email a =? AuthService.normalize email1)%string)
       (objs db1) = None ->
  find (fun a => (models.email a =? AuthService.normalize email2)%string)
       (objs db2) = Some u ->
  models.verify_password u password2 = false ->
  fst (AuthService.authenticate_user settings now1 email1 password1 db1)
  = fst (AuthService.authenticate_user settings now2 email2 password2 db2)
  /\ fst (AuthService.authenticate_user settings now1 email1 password1 db1)
     = Raise (AuthenticationError InvalidCredentials
                "Incorrect email or password" 401).
Proof.
  intros Habsent Hfound Hwrong.
  unfold AuthService.authenticate_user. unfold_session.
  rewrite Habsent, Hfound, Hwrong. simpl. split; reflexivity.
Qed.

(** C5. For every token, [refresh_tokens] leaves the session as it
    was.  When the token does not decode, it raises what [verify_token]
    raises and returns nothing.  When it decodes, it raises
    [InvalidTokenTypeError] if the type claim is not ["refresh"];
    otherwise [InvalidTokenError] if the subject is missing or is not a
    string of 26 characters; otherwise [UserNotFoundError] if no account
    has that id; otherwise [InactiveUserError] if the account is
    inactive; and only otherwise returns a pair of new tokens. *)
Theorem refresh_tokens_outcomes
    (now : Z) (refresh_token : string) (db : Session) :
  let out := AuthService.refresh_tokens settings now refresh_token db in
  snd out = db /\
  match verify_token now refresh_token (Some settings) with
  | Raise e => fst out = Raise e
  | Ok payload =>
    if negb (Py.eq_str (Py.get payload "type") "refresh")
    then fst out = Raise (InvalidTokenTypeError None)
    else
      match well_formed_subject (Py.get payload "sub") with
      | None => exists msg, fst out = Raise (InvalidTokenError (Some msg))
      | Some uid =>
        match find (fun a => (uid =? models.id a)%string) (objs db) with
        | None => fst out = Raise (UserNotFoundError None)
        | Some u =>
          if models.is_active u
          then fst out =
               Ok {| tr_accessToken :=
                       create_access_token now
                         [("sub", Py.VStr (models.id u))] None;
                     tr_refreshToken :=
                       create_refresh_token now
                         [("sub", Py.VStr (models.id u))] None;
                     tr_tokenType := "bearer";
                     tr_expiresIn :=
                       access_token_expires_minutes (security settings)
                       * 60 |}
          else fst out = Raise (InactiveUserError None)
        end
      end
  end.
Proof.
  cbv zeta.
  unfold AuthService.refresh_tokens. unfold_session.
  destruct (verify_token now refresh_token (Some settings))
    as [payload|e]; [|now split].
  destruct (negb (Py.eq_str (Py.get payload "type") "refresh"));
    [now split|].
  destruct (Py.get payload "sub") as [|b|z|s|l|d]; simpl.
  - split; [reflexivity | eauto].
  - destruct b; simpl; split; eauto.
  - destruct (z =? 0); simpl; split; eauto.
  - destruct (s =? "")%string eqn:Hempty; simpl.
    + apply String.eqb_eq in Hempty. subst s. simpl. split; eauto.
    + destruct (Z.of_nat (String.length s) =? 26); simpl;
        [|split; eauto].
      destruct (find _ (objs db)) as [u|]; [|now split].
      destruct (models.is_active u); simpl; now split.
  - destruct l; simpl; split; eauto.
  - destruct d; simpl; split; eauto.
Qed.

End LoginRefresh.

Lemma login_failures_indistinguishable_witness :
  fst (@AuthService.authenticate_user Sample.core Sample.settings 5000
         "carol@example.com" "Passw0rd!" (open_session Sample.table))
  = fst (@AuthService.authenticate_user Sample.core Sample.settings 5000
           " Alice@Example.COM" "Wr0ng!pass" (open_session Sample.table))
  /\ fst (@AuthService.authenticate_user Sample.core Sample.settings 5000
            "carol@example.com" "Passw0rd!" (open_session Sample.table))
     = Raise (AuthenticationError InvalidCredentials
                "Incorrect email or password" 401).
Proof.
  apply (@login_failures_indistinguishable Sample.core Sample.settings
           5000 5000 "carol@example.com" "Passw0rd!"
           " Alice@Example.COM" "Wr0ng!pass"
           (open_session Sample.table) (open_session Sample.table)
           Sample.alice);
    reflexivity.
Defined.

Lemma refresh_tokens_outcomes_witness :
  fst (@AuthService.refresh_tokens Sample.core Sample.settings 5000
         "garbage" (open_session Sample.table))
  = Raise (LibraryError "Invalid token") /\
  fst (@AuthService.refresh_tokens Sample.core Sample.settings 5000
         "password_reset:8600:01HZX3KQ9R8T7V6W5Y4A3B2C1D"
         (open_session Sample.table))
  = Raise (InvalidTokenTypeError None).
Proof.
  split.
  - exact (proj2 (@refresh_tokens_outcomes Sample.core Sample.settings
                    5000 "garbage" (open_session Sample.table))).
  - exact (proj2 (@refresh_tokens_outcomes Sample.core Sample.settings
                    5000 "password_reset:8600:01HZX3KQ9R8T7V6W5Y4A3B2C1D"
                    (open_session Sample.table))).
Defined.

(* ------------------------------------------------------------------ *)
(** ** Writes to the store *)

Lemma set_updated_at_fields (u : models.User) (t : option Z) :
  models.id (set_updated_at u t) = models.id u /\
  models.reset_token (set_updated_at u t) = models.reset_token u /\
  models.reset_token_expiry (set_updated_at u t)
  = models.reset_token_expiry u.
Proof. now repeat split. Qed.

Lemma flush_row_fields (now : Z) (old : list models.User)
    (u : models.User) :
  models.id (flush_row now old u) = models.id u /\
  models.reset_token (flush_row now old u) = models.reset_token u /\
  models.reset_token_expiry (flush_row now old u)
  = models.reset_token_expiry u.
Proof.
  unfold flush_row.
  destruct (find _ old) as [o|]; [|now repeat split].
  destruct (models.User_eq_dec o u); [now repeat split|].
  apply set_updated_at_fields.
Qed.

Section PasswordReset.
Context {fc : FastapiCore}.
Variable settings : Settings.

Lemma request_password_reset_skips (now : Z) (email : string)
    (db : Session) :
  match find (fun a =>
                (models.email a =? AuthService.normalize email)%string)
             (objs db) with
  | Some u => models.is_active u = false
  | None => True
  end ->
  AuthService.request_password_reset settings now email db = (Ok None, db).
Proof.
  unfold AuthService.request_password_reset. unfold_session.
  destruct (find _ (objs db)) as [u|]; [|reflexivity].
  intros ->. reflexivity.
Qed.

Lemma request_password_reset_stores (now : Z) (email : string)
    (table : list models.User) (u : models.User) :
  find (fun a => (models.email a =? AuthService.normalize email)%string)
       table = Some u ->
  models.is_active u = true ->
  let out := AuthService.request_password_reset settings now email
               (open_session table) in
  fst out = Ok (Some (issued_token settings now u)) /\
  objs (snd out) = rows (snd out) /\
  holds_reset_token (rows (snd out)) (models.id u)
    (issued_token settings now u) (now + 3600).
Proof.
  intros Hfound Hactive. cbv zeta.
  unfold AuthService.request_password_reset. unfold_session.
  simpl. rewrite Hfound, Hactive. simpl.
  split; [reflexivity|]. split; [reflexivity|].
  apply find_some in Hfound. destruct Hfound as [Hin _].
  split.
  - eexists. split.
    + apply in_map. apply in_map. exact Hin.
    + rewrite (proj1 (flush_row_fields _ _ _)).
      rewrite String.eqb_refl. reflexivity.
  - intros o Ho Hid.
    apply in_map_iff in Ho. destruct Ho as [o1 [Ho1 Hin1]].
    apply in_map_iff in Hin1. destruct Hin1 as [o0 [Ho0 _]].
    subst o. destruct (flush_row_fields now table o1) as (Hi & Ht & He).
    rewrite Ht, He. rewrite Hi in Hid. subst o1.
    destruct (models.id o0 =? models.id u)%string eqn:Hsame.
    + now split.
    + apply String.eqb_neq in Hsame. contradiction.
Qed.

(** C3. [forgot_password] answers with the same message whatever the
    email.  When an account has the normalized email and is active, the
    committed table holds the issued token with expiry [now + 3600] on
    that account; when no account has it, or the account is inactive,
    the session and the table are left exactly as they were. *)
Theorem forgot_password_uniform
    (now : Z) (email : string) (table : list models.User) :
  let out := AuthService.forgot_password settings now email
               (open_session table) in
  (exists logged,
     fst out = Ok ({| message :=
       "If the email exists, a password reset link has been sent" |},
       logged)) /\
  match find (fun a =>
                (models.email a =? AuthService.normalize email)%string)
             table with
  | Some u =>
    if models.is_active u
    then holds_reset_token (close (snd out)) (models.id u)
           (issued_token settings now u) (now + 3600)
    else snd out = open_session table
  | None => snd out = open_session table
  end.
Proof.
  cbv zeta. unfold AuthService.forgot_password, bind.
  destruct (find _ table) as [u|] eqn:Hfound.
  - destruct (models.is_active u) eqn:Hactive.
    + destruct (request_password_reset_stores now email table Hfound
                  Hactive) as (Hres & _ & Hholds).
      destruct (AuthService.request_password_reset settings now email
                  (open_session table)) as [r db'].
      simpl in Hres, Hholds. subst r. unfold ret. simpl.
      split; [eauto | exact Hholds].
    + rewrite request_password_reset_skips.
      * unfold ret. simpl. split; [eauto | reflexivity].
      * simpl. rewrite Hfound. exact Hactive.
  - rewrite request_password_reset_skips.
    + unfold ret. simpl. split; [eauto | reflexivity].
    + simpl. now rewrite Hfound.
Qed.

(** [reset_password] never finds a match: each candidate account is
    rejected by [is_reset_token_valid]. *)
Lemma reset_password_scan_raises (now : Z) (token new_password : string)
    (users : list models.User) (db : Session) :
  AuthService.reset_password_scan now token new_password users db
  = (Raise (InvalidResetTokenError None), db).
Proof.
  induction users as [|u rest IH]; simpl; [reflexivity|].
  unfold bind, lift at 1. rewrite is_reset_token_valid_unbound.
  exact IH.
Qed.

Lemma reset_password_raises (now : Z) (token new_password : string)
    (db : Session) :
  AuthService.reset_password now token new_password db
  = (Raise (InvalidResetTokenError None), db).
Proof.
  unfold AuthService.reset_password, bind, query_all.
  apply reset_password_scan_raises.
Qed.

(** Whatever [is_reset_token_valid] answers, a scan that raises has
    written nothing. *)
Lemma reset_password_scan_failure (now : Z) (token new_password : string)
    (users : list models.User) (db : Session) (e : exn) :
  fst (AuthService.reset_password_scan now token new_password users db)
  = Raise e ->
  snd (AuthService.reset_password_scan now token new_password users db)
  = db.
Proof.
  induction users as [|u rest IH]; simpl; [reflexivity|].
  unfold bind, lift.
  destruct (models.is_reset_token_valid now u token) as [[|]|e'];
    simpl; [discriminate | exact IH | reflexivity].
Qed.

End PasswordReset.

(* ------------------------------------------------------------------ *)
(** ** Failures leave the store alone *)

(** C7. When register, requestPasswordReset, resetPassword or
    changePassword raises, the session (its committed rows and its
    loaded objects) is exactly what it was before the call. *)
Theorem failed_mutation_changes_nothing {fc : FastapiCore}
    (settings : Settings) (c : call) (db : Session) (e : exn) :
  mutating c = true ->
  fst (run settings c db) = Raise e ->
  snd (run settings c db) = db.
Proof.
  destruct c as [now new_id em pw nm | now em pw | now tok | tok u | u | now em
    | now em | now tok npw | now uid cpw npw
    | now new_id rpw em nm gid];
    simpl; try discriminate; intros _.
  - unfold AuthService.register_user. unfold_session.
    destruct (find _ (objs db)); simpl; [reflexivity | discriminate].
  - unfold AuthService.request_password_reset. unfold_session.
    destruct (find _ (objs db)) as [u|]; simpl; [|discriminate].
    destruct (models.is_active u); simpl; discriminate.
  - unfold AuthService.reset_password, fmap, bind, query_all, ret.
    pose proof (reset_password_scan_failure now tok npw
                  (filter (fun u => match models.reset_token u with
                                    | Some _ => true
                                    | None => false
                                    end) (objs db)) db) as Hscan.
    destruct (AuthService.reset_password_scan _ _ _ _ db) as [[b|e'] db'];
      simpl in *; [discriminate|].
    intros _. now apply (Hscan e').
  - unfold AuthService.change_password. unfold_session.
    destruct (find _ (objs db)) as [u|]; simpl; [|reflexivity].
    destruct (models.is_active u); simpl; [|reflexivity].
    destruct (models.verify_password u cpw); simpl;
      [discriminate | reflexivity].
Qed.

Lemma failed_mutation_changes_nothing_witness :
  snd (@run Sample.core Sample.settings
         (ChangePassword 5000 Sample.alice_id "Wr0ng!pass" "N3w!Passw")
         (open_session Sample.table))
  = open_session Sample.table.
Proof.
  apply (@failed_mutation_changes_nothing Sample.core Sample.settings
           (ChangePassword 5000 Sample.alice_id "Wr0ng!pass" "N3w!Passw")
           (open_session Sample.table)
           (InvalidCredentialsError (Some "Current password is incorrect")));
    reflexivity.
Defined.

(* ------------------------------------------------------------------ *)
(** ** The reset token and its expiry come and go together *)

Section Paired.
Context {fc : FastapiCore}.

Lemma paired_set_password (u : models.User) (password : string) :
  reset_fields_paired (models.set_password u password)
  = reset_fields_paired u.
Proof. reflexivity. Qed.

Lemma paired_set_reset_token (u : models.User) (token : string)
    (expiry : Z) :
  reset_fields_paired (models.set_reset_token u token expiry) = true.
Proof. reflexivity. Qed.

Lemma paired_clear_reset_token (u : models.User) :
  reset_fields_paired (models.clear_reset_token u) = true.
Proof. reflexivity. Qed.

Lemma paired_new (new_id : string) (now : Z) (email name : string) :
  reset_fields_paired (models.new new_id now email name) = true.
Proof. reflexivity. Qed.

Lemma paired_flush_row (now : Z) (old : list models.User)
    (u : models.User) :
  reset_fields_paired (flush_row now old u) = reset_fields_paired u.
Proof.
  unfold reset_fields_paired.
  destruct (flush_row_fields now old u) as (_ & -> & ->). reflexivity.
Qed.

Lemma all_paired_flush (now : Z) (old l : list models.User) :
  all_paired l -> all_paired (map (flush_row now old) l).
Proof.
  unfold all_paired. rewrite Forall_map.
  apply Forall_impl. intros u. now rewrite paired_flush_row.
Qed.

Lemma all_paired_assign (uid : string) (u : models.User)
    (l : list models.User) :
  reset_fields_paired u = true ->
  all_paired l ->
  all_paired (map (fun o => if (models.id o =? uid)%string
                            then u else o) l).
Proof.
  intros Hu. unfold all_paired. rewrite Forall_map.
  apply Forall_impl. intros o Ho.
  now destruct (models.id o =? uid)%string.
Qed.

Lemma all_paired_find (p : models.User -> bool) (l : list models.User)
    (u : models.User) :
  all_paired l -> find p l = Some u -> reset_fields_paired u = true.
Proof.
  intros Hall Hfound. apply find_some in Hfound.
  unfold all_paired in Hall. rewrite Forall_forall in Hall.
  now apply Hall.
Qed.

(** The table once a new account is inserted. *)
Lemma all_paired_insert (now : Z) (old l : list models.User)
    (u : models.User) :
  all_paired l ->
  reset_fields_paired u = true ->
  all_paired (map (flush_row now old) (l ++ [u])).
Proof.
  intros Hl Hu. apply all_paired_flush. unfold all_paired in *.
  apply Forall_app. split; [assumption|]. now constructor.
Qed.

Lemma reset_password_scan_paired (now : Z) (token new_password : string)
    (users : list models.User) (db : Session) :
  all_paired users ->
  session_paired db ->
  session_paired
    (snd (AuthService.reset_password_scan now token new_password users db)).
Proof.
  intros Husers Hdb.
  induction Husers as [|u rest Hu Hrest IH]; simpl; [exact Hdb|].
  unfold bind, lift.
  destruct (models.is_reset_token_valid now u token) as [[|]|e];
    simpl; [|exact IH|exact Hdb].
  unfold assign, commit, ret. simpl. destruct Hdb as [Hrows Hobjs].
  split; apply all_paired_flush;
    apply all_paired_assign; try reflexivity;
    apply all_paired_assign; try assumption;
    now rewrite paired_set_password.
Qed.

(** Every request keeps the reset fields of every account paired. *)
Lemma run_keeps_paired (settings : Settings) (c : call) (db : Session) :
  session_paired db -> session_paired (snd (run settings c db)).
Proof.
  intros Hdb. pose proof Hdb as [Hrows Hobjs].
  destruct c as [now new_id em pw nm | now em pw | now tok | tok u | u | now em
    | now em | now tok npw | now uid cpw npw
    | now new_id rpw em nm gid];
    simpl.
  - (* register *)
    unfold AuthService.register_user. unfold_session.
    destruct (find _ (objs db)); simpl; [exact Hdb|].
    split; now apply all_paired_insert.
  - (* login *)
    unfold AuthService.authenticate_user. unfold_session.
    destruct (find _ (objs db)) as [u|]; simpl; [|exact Hdb].
    destruct (models.verify_password u pw); simpl; [|exact Hdb].
    destruct (models.is_active u); exact Hdb.
  - (* refresh *)
    unfold fmap, bind.
    destruct (AuthService.refresh_tokens settings now tok db)
      as [r db'] eqn:Hout.
    assert (Hsame : db' = db).
    { unfold AuthService.refresh_tokens in Hout. unfold_session.
      destruct (verify_token now tok (Some settings))
        as [payload|]; [|now injection Hout as _ <-].
      destruct (negb (Py.eq_str (Py.get payload "type") "refresh"));
        [now injection Hout as _ <-|].
      destruct (negb (Py.truthy (Py.get payload "sub")));
        [now injection Hout as _ <-|].
      destruct (negb (Py.is_str (Py.get payload "sub"))
                || negb (Py.str_len (Py.get payload "sub") =? 26));
        [now injection Hout as _ <-|].
      destruct (find _ (objs db)) as [u|];
        [|now injection Hout as _ <-].
      destruct (negb (models.is_active u)); now injection Hout as _ <-. }
    subst db'. destruct r; exact Hdb.
  - (* logout *)
    exact Hdb.
  - (* profile *)
    exact Hdb.
  - (* forgot-password endpoint *)
    unfold AuthService.forgot_password,
      AuthService.request_password_reset. unfold_session.
    destruct (find _ (objs db)) as [u|] eqn:Hfound; simpl; [|exact Hdb].
    destruct (models.is_active u); simpl; [|exact Hdb].
    split; apply all_paired_flush; now apply all_paired_assign.
  - (* reset request *)
    unfold AuthService.request_password_reset. unfold_session.
    destruct (find _ (objs db)) as [u|] eqn:Hfound; simpl; [|exact Hdb].
    destruct (models.is_active u); simpl; [|exact Hdb].
    split; apply all_paired_flush; now apply all_paired_assign.
  - (* reset *)
    unfold AuthService.reset_password, fmap, bind, query_all.
    pose proof (@reset_password_scan_paired now tok npw
      (filter (fun u => match models.reset_token u with
                        | Some _ => true
                        | None => false
                        end) (objs db)) db) as Hscan.
    destruct (AuthService.reset_password_scan _ _ _ _ db)
      as [[b|e] db']; simpl in *; apply Hscan; try exact Hdb;
      unfold all_paired in *; rewrite Forall_forall in *;
      intros u Hu; apply filter_In in Hu; now apply Hobjs.
  - (* change password *)
    unfold AuthService.change_password. unfold_session.
    destruct (find _ (objs db)) as [u|] eqn:Hfound; simpl; [|exact Hdb].
    destruct (models.is_active u); simpl; [|exact Hdb].
    destruct (models.verify_password u cpw); simpl;
      [|exact Hdb].
    split; apply all_paired_flush; apply all_paired_assign;
      try assumption; rewrite paired_set_password;
      exact (all_paired_find _ Hobjs Hfound).
  - (* Google sign-in *)
    unfold AuthService.authenticate_with_google. unfold_session.
    destruct (find _ (objs db)) as [u|] eqn:Hfound; simpl.
    + destruct (models.is_active u); exact Hdb.
    + match goal with
      | |- context [negb (models.is_active ?v)] =>
        destruct (negb (models.is_active v))
      end; simpl; split; now apply all_paired_insert.
Qed.

End Paired.

Lemma serve_keeps_paired {fc : FastapiCore} (settings : Settings)
    (c : call) (table : list models.User) :
  all_paired table -> all_paired (snd (serve settings c table)).
Proof.
  intros Htable. unfold serve, close. simpl.
  apply (run_keeps_paired settings c (db := open_session table)).
  now split.
Qed.

(** C9. [set_reset_token] assigns the token and its expiry together,
    [clear_reset_token] clears both, a new account has neither; every
    request keeps, for every account of the session, the two fields
    both present or both absent, so every table reached from the empty
    one has them paired; and a reset request for an active account
    leaves the newly issued token, with its expiry, as the one token of
    that account, whatever was stored before (an account has a single
    [reset_token] field, which the request overwrites). *)
Theorem reset_fields_stay_paired {fc : FastapiCore} (settings : Settings) :
  (forall u token expiry,
     models.reset_token (models.set_reset_token u token expiry)
     = Some token /\
     models.reset_token_expiry (models.set_reset_token u token expiry)
     = Some expiry) /\
  (forall u,
     models.reset_token (models.clear_reset_token u) = None /\
     models.reset_token_expiry (models.clear_reset_token u) = None) /\
  (forall new_id now em nm,
     models.reset_token (models.new new_id now em nm) = None /\
     models.reset_token_expiry (models.new new_id now em nm) = None) /\
  (forall c db,
     session_paired db -> session_paired (snd (run settings c db))) /\
  (forall calls, all_paired (serve_all settings calls [])) /\
  (forall now em table u,
     find (fun a => (models.email a =? AuthService.normalize em)%string)
          table = Some u ->
     models.is_active u = true ->
     holds_reset_token
       (snd (serve settings (RequestPasswordReset now em) table))
       (models.id u) (issued_token settings now u) (now + 3600)).
Proof.
  split; [now intros|]. split; [now intros|]. split; [now intros|].
  split; [intros c db; apply run_keeps_paired|].
  split.
  - intros calls.
    assert (Hall : forall table, all_paired table ->
                     all_paired (serve_all settings calls table)).
    { induction calls as [|c rest IH]; intros table Htable; simpl;
        [exact Htable|].
      apply IH. now apply serve_keeps_paired. }
    apply Hall. constructor.
  - intros now em table u Hfound Hactive.
    destruct (request_password_reset_stores settings now em table
                Hfound Hactive) as (_ & _ & Hholds).
    unfold serve, run, fmap, bind, close. cbn [snd].
    destruct (AuthService.request_password_reset settings now em
                (open_session table)) as [[r|e] db']; exact Hholds.
Qed.

Lemma reset_fields_stay_paired_witness :
  session_paired
    (snd (@run Sample.core Sample.settings
            (RequestPasswordReset 5000 "Alice@Example.com ")
            (open_session Sample.table)))
  /\ holds_reset_token Sample.table_after_request Sample.alice_id
       Sample.alice_token 8600.
Proof.
  destruct (@reset_fields_stay_paired Sample.core Sample.settings)
    as (_ & _ & _ & Hrun & _ & Hstore).
  split.
  - apply Hrun. split; repeat constructor.
  - apply (Hstore 5000 "Alice@Example.com " Sample.table Sample.alice);
      reflexivity.
Defined.

(* ------------------------------------------------------------------ *)
(** ** What a stored, unexpired reset token achieves *)

(** C1, on the code as written.  Alice holds the reset token issued to
    her at 5000, stored with its expiry; at 5060 the token decodes to a
    [password_reset] payload with her id as subject.  Had [user.py]
    bound [verify_token], the check would accept it; as written it
    rejects it, and [reset_password] with exactly that token raises
    [InvalidResetTokenError] and leaves the table as it was. *)
Theorem reset_password_rejects_stored_token :
  Sample.table_after_request = [Sample.alice_after_request; Sample.bob] /\
  models.reset_token Sample.alice_after_request = Some Sample.alice_token /\
  @verify_token Sample.core 5060 Sample.alice_token None
  = Ok [ ("sub", Py.VStr Sample.alice_id);
         ("type", Py.VStr "password_reset"); ("exp", Py.VInt 8600) ] /\
  @models.is_reset_token_valid_in Sample.core
    ("verify_token" :: models.module_globals) 5060
    Sample.alice_after_request Sample.alice_token
  = Ok true /\
  @models.is_reset_token_valid Sample.core 5060
    Sample.alice_after_request Sample.alice_token
  = Ok false /\
  @serve Sample.core Sample.settings
    (ResetPassword 5060 Sample.alice_token "N3w!Passw")
    Sample.table_after_request
  = (Raise (AuthenticationError InvalidResetToken
              "Invalid or expired reset token" 400),
     Sample.table_after_request).
Proof. repeat split; vm_compute; reflexivity. Qed.

(* ------------------------------------------------------------------ *)
(** ** The two places that issue a token pair *)

Lemma login_response_tokens {fc : FastapiCore} (settings : Settings)
    (now : Z) (u : models.User) :
  accessToken (AuthService._create_login_response settings now u)
  = create_access_token now [("sub", Py.VStr (models.id u))]
      (Some settings) /\
  refreshToken (AuthService._create_login_response settings now u)
  = create_refresh_token now [("sub", Py.VStr (models.id u))]
      (Some settings) /\
  expiresIn (AuthService._create_login_response settings now u)
  = access_token_expires_minutes (security settings) * 60.
Proof. now repeat split. Qed.

(** For an account that passes the checks of [refresh_tokens], the pair
    it returns is the one [_create_login_response] issues exactly when
    the codec signs the same tokens without [settings] as with them. *)
Lemma refresh_pair_is_login_pair_iff {fc : FastapiCore}
    (settings : Settings) (now : Z) (refresh_token : string)
    (db : Session) (payload : Py.dict) (u : models.User) :
  verify_token now refresh_token (Some settings) = Ok payload ->
  Py.eq_str (Py.get payload "type") "refresh" = true ->
  well_formed_subject (Py.get payload "sub") = Some (models.id u) ->
  find (fun a => (models.id u =? models.id a)%string) (objs db) = Some u ->
  models.is_active u = true ->
  exists r,
    fst (AuthService.refresh_tokens settings now refresh_token db) = Ok r /\
    tr_expiresIn r
    = expiresIn (AuthService._create_login_response settings now u) /\
    (tr_accessToken r
     = accessToken (AuthService._create_login_response settings now u) /\
     tr_refreshToken r
     = refreshToken (AuthService._create_login_response settings now u)
     <->
     create_access_token now [("sub", Py.VStr (models.id u))] None
     = create_access_token now [("sub", Py.VStr (models.id u))]
         (Some settings) /\
     create_refresh_token now [("sub", Py.VStr (models.id u))] None
     = create_refresh_token now [("sub", Py.VStr (models.id u))]
         (Some settings)).
Proof.
  intros Hdec Htype Hsub Hfound Hactive.
  unfold well_formed_subject in Hsub.
  destruct (Py.get payload "sub") as [|b|z|s|l|d] eqn:Hget;
    try discriminate.
  destruct (Z.of_nat (String.length s) =? 26) eqn:Hlen; [|discriminate].
  injection Hsub as ->.
  assert (Hnonempty : (models.id u =? "")%string = false).
  { destruct (models.id u =? "")%string eqn:Hempty; [|reflexivity].
    apply String.eqb_eq in Hempty. rewrite Hempty in Hlen. discriminate. }
  unfold AuthService.refresh_tokens. unfold_session.
  rewrite Hdec, Htype, Hget. simpl.
  rewrite Hnonempty, Hlen. simpl. rewrite Hfound, Hactive. simpl.
  eexists. split; [reflexivity|]. simpl. split; reflexivity.
Qed.

(* ------------------------------------------------------------------ *)
(** ** The public view of an account *)


(* ------------------------------------------------------------------ *)
(** ** Email normalization *)

Lemma lower_char_space (c : ascii) :
  Py.is_space (Py.lower_char c) = Py.is_space c.
Proof.
  destruct c as [b0 b1 b2 b3 b4 b5 b6 b7].
  destruct b0, b1, b2, b3, b4, b5, b6, b7; reflexivity.
Qed.

Lemma lower_char_not_upper (c : ascii) :
  Py.is_upper (Py.lower_char c) = false.
Proof.
  destruct c as [b0 b1 b2 b3 b4 b5 b6 b7].
  destruct b0, b1, b2, b3, b4, b5, b6, b7; reflexivity.
Qed.

Lemma lower_char_idempotent (c : ascii) :
  Py.lower_char (Py.lower_char c) = Py.lower_char c.
Proof.
  unfold Py.lower_char at 1. now rewrite lower_char_not_upper.
Qed.

Lemma lower_as_map (s : string) :
  Py.lower s
  = string_of_list_ascii (map Py.lower_char (list_ascii_of_string s)).
Proof.
  induction s as [|c s IH]; simpl; [reflexivity | now rewrite IH].
Qed.

Lemma lstrip_map_lower (l : list ascii) :
  Py.lstrip (map Py.lower_char l) = map Py.lower_char (Py.lstrip l).
Proof.
  induction l as [|c l IH]; simpl; [reflexivity|].
  rewrite lower_char_space. now destruct (Py.is_space c).
Qed.

Lemma lstrip_idempotent (l : list ascii) :
  Py.lstrip (Py.lstrip l) = Py.lstrip l.
Proof.
  induction l as [|c l IH]; simpl; [reflexivity|].
  destruct (Py.is_space c) eqn:Hc; [exact IH|].
  simpl. now rewrite Hc.
Qed.

(** What [lstrip] leaves is empty or starts with a character that is
    not whitespace. *)
Lemma lstrip_head (l : list ascii) :
  match Py.lstrip l with
  | [] => True
  | c :: _ => Py.is_space c = false
  end.
Proof.
  induction l as [|c l IH]; simpl; [exact I|].
  destruct (Py.is_space c) eqn:Hc; [exact IH | exact Hc].
Qed.

Lemma lstrip_keeps_last (l : list ascii) (c : ascii) :
  Py.is_space c = false ->
  exists x, Py.lstrip (l ++ [c])%list = (x ++ [c])%list.
Proof.
  intros Hc. induction l as [|d l IH]; simpl.
  - rewrite Hc. now exists [].
  - destruct (Py.is_space d); [exact IH|]. now exists (d :: l).
Qed.

Lemma strip_chars_idempotent (l : list ascii) :
  strip_chars (strip_chars l) = strip_chars l.
Proof.
  unfold strip_chars.
  pose proof (lstrip_head l) as Hhead.
  destruct (Py.lstrip l) as [|c m]; [reflexivity|].
  destruct (lstrip_keeps_last (rev m) c Hhead) as [x Hx].
  assert (Hfix : Py.lstrip (x ++ [c])%list = (x ++ [c])%list).
  { rewrite <- Hx. apply lstrip_idempotent. }
  assert (Hrev : rev (x ++ [c])%list = c :: rev x).
  { rewrite rev_app_distr. reflexivity. }
  change (rev (c :: m)) with (rev m ++ [c])%list.
  rewrite Hx, Hrev.
  change (Py.lstrip (c :: rev x))
    with (if Py.is_space c then Py.lstrip (rev x) else c :: rev x).
  rewrite Hhead.
  change (rev (c :: rev x)) with (rev (rev x) ++ [c])%list.
  now rewrite rev_involutive, Hfix.
Qed.

Lemma strip_chars_map_lower (l : list ascii) :
  strip_chars (map Py.lower_char l) = map Py.lower_char (strip_chars l).
Proof.
  unfold strip_chars.
  now rewrite lstrip_map_lower, <- map_rev, lstrip_map_lower, map_rev.
Qed.

Lemma normalize_chars (e : string) :
  list_ascii_of_string (AuthService.normalize e)
  = strip_chars (map Py.lower_char (list_ascii_of_string e)).
Proof.
  unfold AuthService.normalize, Py.strip.
  rewrite list_ascii_of_string_of_list_ascii, lower_as_map.
  now rewrite list_ascii_of_string_of_list_ascii.
Qed.

Lemma normalize_normalize (e : string) :
  AuthService.normalize (AuthService.normalize e) = AuthService.normalize e.
Proof.
  assert (Hchars :
    list_ascii_of_string (AuthService.normalize (AuthService.normalize e))
    = list_ascii_of_string (AuthService.normalize e)).
  { rewrite (normalize_chars (AuthService.normalize e)).
    rewrite normalize_chars.
    rewrite <- strip_chars_map_lower, map_map.
    rewrite (map_ext _ Py.lower_char
               (fun c => lower_char_idempotent c)).
    apply strip_chars_idempotent. }
  rewrite <- (string_of_list_ascii_of_string
                (AuthService.normalize (AuthService.normalize e))).
  rewrite Hchars. apply string_of_list_ascii_of_string.
Qed.

(** X1. Normalizing a normalized email changes nothing. *)
Theorem normalize_idempotent (e : string) :
  AuthService.normalize (AuthService.normalize e) = AuthService.normalize e.
Proof. exact (normalize_normalize e). Qed.

(** X2. A normalized email is left unchanged by [lower] and by [strip]
    taken one at a time, and it neither starts nor ends with
    whitespace. *)
Theorem normalize_shape (e : string) :
  Py.lower (AuthService.normalize e) = AuthService.normalize e /\
  Py.strip (AuthService.normalize e) = AuthService.normalize e /\
  no_outer_space (AuthService.normalize e) = true.
Proof.
  split; [|split].
  - rewrite lower_as_map, normalize_chars, strip_chars_map_lower.
    rewrite map_map.
    rewrite (map_ext _ Py.lower_char
               (fun c => lower_char_idempotent c)).
    rewrite <- strip_chars_map_lower, <- normalize_chars.
    apply string_of_list_ascii_of_string.
  - unfold Py.strip. fold (strip_chars
                             (list_ascii_of_string
                                (AuthService.normalize e))).
    rewrite normalize_chars, strip_chars_idempotent.
    rewrite <- normalize_chars.
    apply string_of_list_ascii_of_string.
  - unfold no_outer_space. rewrite normalize_chars.
    set (l := map Py.lower_char (list_ascii_of_string e)).
    unfold strip_chars. rewrite rev_involutive.
    apply andb_true_iff. split.
    + pose proof (lstrip_head l) as Hhead.
      destruct (Py.lstrip l) as [|c m]; [reflexivity|].
      destruct (lstrip_keeps_last (rev m) c Hhead) as [x Hx].
      change (rev (c :: m)) with (rev m ++ [c])%list.
      rewrite Hx, rev_app_distr. simpl. now rewrite Hhead.
    + pose proof (lstrip_head (rev (Py.lstrip l))) as Hhead.
      destruct (Py.lstrip (rev (Py.lstrip l))); [reflexivity|].
      now rewrite Hhead.
Qed.

(* ------------------------------------------------------------------ *)
(** ** Lookups in a table that was written to *)



(** A lookup that hit [u] hits [v] once [u], and maybe other rows, are
    replaced by [v], the other rows keeping their answer to [p]. *)
Lemma find_map_replace {A} (p : A -> bool) (g : A -> A) (l : list A)
    (u v : A) :
  find p l = Some u ->
  g u = v ->
  p v = true ->
  (forall o, g o = v \/ p (g o) = p o) ->
  find p (map g l) = Some v.
Proof.
  intros Hfound Hu Hv Hg. induction l as [|a l IH]; simpl in *;
    [discriminate|].
  destruct (p a) eqn:Ha.
  - injection Hfound as ->. now rewrite Hu, Hv.
  - destruct (Hg a) as [Hrep | Hsame].
    + now rewrite Hrep, Hv.
    + rewrite Hsame, Ha. now apply IH.
Qed.


(** With unique keys, the lookup by the key of a row finds that row. *)
Lemma find_by_id_unique (l : list models.User) (o : models.User) :
  NoDup (map models.id l) ->
  In o l ->
  find (fun x => (models.id x =? models.id o)%string) l = Some o.
Proof.
  induction l as [|a l IH]; simpl; intros Hnodup Hin; [contradiction|].
  inversion Hnodup as [|? ? Hnotin Hrest]; subst.
  destruct Hin as [-> | Hin].
  - now rewrite String.eqb_refl.
  - destruct (models.id a =? models.id o)%string eqn:Ha.
    + apply String.eqb_eq in Ha. exfalso. apply Hnotin. rewrite Ha.
      now apply in_map.
    + now apply IH.
Qed.

Lemma set_updated_at_back (u : models.User) (t : option Z) :
  set_updated_at (set_updated_at u t) (models.updated_at u) = u.
Proof. now destruct u. Qed.

Lemma set_updated_at_same (u : models.User) :
  set_updated_at u (models.updated_at u) = u.
Proof. now destruct u. Qed.

Lemma flush_row_touched (now : Z) (old : list models.User)
    (u : models.User) :
  touched now u (flush_row now old u).
Proof.
  unfold touched, flush_row.
  destruct (find _ old) as [o|];
    [destruct (models.User_eq_dec o u)|].
  - split; [apply set_updated_at_same | now left].
  - split; [apply set_updated_at_back | now right].
  - split; [apply set_updated_at_same | now left].
Qed.

(** A touched row differs from the original in [updated_at] only. *)
Lemma touched_fields (now : Z) (u u' : models.User) :
  touched now u u' ->
  models.id u' = models.id u /\
  models.email u' = models.email u /\
  models.name u' = models.name u /\
  models.hashed_password u' = models.hashed_password u /\
  models.is_active u' = models.is_active u /\
  models.created_at u' = models.created_at u /\
  models.reset_token u' = models.reset_token u /\
  models.reset_token_expiry u' = models.reset_token_expiry u /\
  models.tier u' = models.tier u.
Proof.
  intros [Hback _]. rewrite <- Hback. now repeat split.
Qed.

Lemma flush_row_unchanged (now : Z) (l : list models.User)
    (o : models.User) :
  NoDup (map models.id l) -> In o l -> flush_row now l o = o.
Proof.
  intros Hnodup Hin. unfold flush_row.
  rewrite (find_by_id_unique l o Hnodup Hin).
  now destruct (models.User_eq_dec o o).
Qed.


(* ------------------------------------------------------------------ *)
(** ** Registration, login and password change on a table *)

Section Accounts.
Context {fc : FastapiCore}.
Context {py : Pydantic}.
Variable settings : Settings.

Lemma commit_replace_unique (now : Z) (table : list models.User)
    (uid : string) (u0 : models.User) :
  NoDup (map models.id table) ->
  map (flush_row now table) (replace_row uid u0 table)
  = replace_row uid (flush_row now table u0) table.
Proof.
  intros Hnodup. unfold replace_row. rewrite map_map.
  apply map_ext_in. intros o Hin.
  destruct (models.id o =? uid)%string; [reflexivity|].
  now apply flush_row_unchanged.
Qed.

Lemma register_user_creates (now : Z) (new_id e pw nm : string)
    (table : list models.User) :
  find (has_email e) table = None ->
  AuthService.register_user settings now new_id e pw nm (open_session table)
  = (Ok (AuthService._create_login_response settings now
           match find (fun o => (models.id o =? new_id)%string)
                   (map (flush_row now table)
                        (table ++ [new_account new_id now e pw nm]))
           with
           | Some o => o
           | None => new_account new_id now e pw nm
           end),
     open_session (map (flush_row now table)
                     (table ++ [new_account new_id now e pw nm]))).
Proof.
  intros Habsent. unfold AuthService.register_user. unfold_session.
  simpl. unfold has_email in Habsent. rewrite Habsent. reflexivity.
Qed.

Lemma serve_register (now : Z) (new_id e pw nm : string)
    (table : list models.User) :
  find (has_email e) table = None ->
  serve settings (Register now new_id e pw nm) table
  = (Ok (RLogin (AuthService._create_login_response settings now
           match find (fun o => (models.id o =? new_id)%string)
                   (map (flush_row now table)
                        (table ++ [new_account new_id now e pw nm]))
           with
           | Some o => o
           | None => new_account new_id now e pw nm
           end)),
     map (flush_row now table)
       (table ++ [new_account new_id now e pw nm])).
Proof.
  intros Habsent. unfold serve, run, fmap, bind.
  now rewrite (register_user_creates now new_id e pw nm table Habsent).
Qed.

Lemma authenticate_user_finds (now : Z) (e pw : string) (db : Session)
    (u : models.User) :
  find (has_email e) (objs db) = Some u ->
  models.verify_password u pw = true ->
  models.is_active u = true ->
  AuthService.authenticate_user settings now e pw db
  = (Ok (AuthService._create_login_response settings now u), db).
Proof.
  intros Hfound Hpw Hactive.
  unfold AuthService.authenticate_user. unfold_session.
  unfold has_email in Hfound. rewrite Hfound, Hpw, Hactive. reflexivity.
Qed.

Lemma has_email_flush (e : string) (now : Z) (old : list models.User)
    (o : models.User) :
  has_email e (flush_row now old o) = has_email e o.
Proof.
  unfold has_email.
  destruct (touched_fields (flush_row_touched now old o))
    as (_ & -> & _). reflexivity.
Qed.





End Accounts.

Section Writes.
Context {fc : FastapiCore}.
Context {py : Pydantic}.
Variable settings : Settings.

Lemma change_password_writes (now : Z) (uid cur new : string)
    (table : list models.User) (u : models.User) :
  find (fun a => (models.id a =? uid)%string) table = Some u ->
  models.is_active u = true ->
  models.verify_password u cur = true ->
  AuthService.change_password now uid cur new (open_session table)
  = (Ok true,
     open_session (map (flush_row now table)
                     (replace_row uid (models.set_password u new) table))).
Proof.
  intros Hfound Hactive Hpw.
  assert (Hid : models.id u = uid).
  { apply find_some in Hfound. now apply String.eqb_eq. }
  unfold AuthService.change_password. unfold_session.
  cbn [objs open_session]. rewrite Hfound, Hactive, Hpw. subst uid.
  reflexivity.
Qed.

(** X6. On a table with unique keys, a successful [change_password]
    replaces the row of that account by the same row with the hash of
    the new password ([updated_at] apart): its reset token and expiry,
    its email and its active flag are kept, and every other row is
    unchanged. *)
Theorem change_password_frame
    (now : Z) (uid cur new : string) (table : list models.User)
    (u : models.User) :
  NoDup (map models.id table) ->
  find (fun a => (models.id a =? uid)%string) table = Some u ->
  models.is_active u = true ->
  models.verify_password u cur = true ->
  exists u',
    serve settings (ChangePassword now uid cur new) table
    = (Ok (RDone true), replace_row uid u' table) /\
    touched now (models.set_password u new) u' /\
    models.hashed_password u' = get_password_hash new /\
    models.reset_token u' = models.reset_token u /\
    models.reset_token_expiry u' = models.reset_token_expiry u.
Proof.
  intros Hnodup Hfound Hactive Hpw.
  exists (flush_row now table (models.set_password u new)).
  pose proof (flush_row_touched now table (models.set_password u new))
    as Htouched.
  destruct (touched_fields Htouched)
    as (_ & _ & _ & Hhash & _ & _ & Htok & Hexp & _).
  split; [|split; [exact Htouched | now repeat split]].
  unfold serve, run, fmap, bind.
  rewrite (change_password_writes now uid cur new table Hfound Hactive Hpw).
  cbn [fst snd close rows open_session ret].
  now rewrite (commit_replace_unique now table uid
                 (models.set_password u new) Hnodup).
Qed.

(** The lookup by email in the table a password change wrote. *)
Lemma find_after_change (now : Z) (uid new e : string)
    (table : list models.User) (u : models.User) :
  find (fun a => (models.id a =? uid)%string) table = Some u ->
  find (has_email e) table = Some u ->
  find (has_email e)
       (map (flush_row now table)
            (replace_row uid (models.set_password u new) table))
  = Some (flush_row now table (models.set_password u new)).
Proof.
  intros Hfound Hemail.
  unfold replace_row. rewrite map_map.
  apply (find_map_replace (has_email e) _ table (u := u)).
  - exact Hemail.
  - apply find_some in Hfound. destruct Hfound as [_ Hid].
    now rewrite Hid.
  - rewrite has_email_flush.
    apply find_some in Hemail. exact (proj2 Hemail).
  - intros o. destruct (models.id o =? uid)%string; [now left|].
    right. apply has_email_flush.
Qed.

Lemma serve_change_password (now : Z) (uid cur new : string)
    (table : list models.User) (u : models.User) :
  find (fun a => (models.id a =? uid)%string) table = Some u ->
  models.is_active u = true ->
  models.verify_password u cur = true ->
  snd (serve settings (ChangePassword now uid cur new) table)
  = map (flush_row now table)
      (replace_row uid (models.set_password u new) table).
Proof.
  intros Hfound Hactive Hpw. unfold serve, run, fmap, bind.
  now rewrite (change_password_writes now uid cur new table
                 Hfound Hactive Hpw).
Qed.

(** X7. After a successful [change_password] for an account whose view
    validates, a login with the email of that account and the new
    password succeeds, provided the hashing primitive verifies the new
    password against its own hash. *)
Theorem change_password_then_login
    (now now' : Z) (uid cur new e : string) (table : list models.User)
    (u : models.User) :
  find (fun a => (models.id a =? uid)%string) table = Some u ->
  find (has_email e) table = Some u ->
  models.is_active u = true ->
  models.verify_password u cur = true ->
  view_validates u = true ->
  verify_password new (get_password_hash new) = true ->
  let table1 :=
    snd (serve settings (ChangePassword now uid cur new) table) in
  exists r,
    serve settings (Login now' e new) table1 = (Ok (RLogin r), table1) /\
    id (user r) = models.id u.
Proof.
  intros Hfound Hemail Hactive Hpw _ Hhash. cbv zeta.
  rewrite (serve_change_password now uid cur new table Hfound Hactive Hpw).
  pose proof (find_after_change now uid new e table Hfound Hemail)
    as Hlookup.
  destruct (touched_fields
              (flush_row_touched now table (models.set_password u new)))
    as (Hvid & _ & _ & Hvhash & Hvactive & _).
  eexists. split.
  - unfold serve, run, fmap, bind.
    rewrite (@authenticate_user_finds _ settings now' e new
               (open_session _) _ Hlookup).
    + reflexivity.
    + unfold models.verify_password. rewrite Hvhash. exact Hhash.
    + now rewrite Hvactive.
  - simpl. exact Hvid.
Qed.

(** X18. After a successful [change_password], a login with the email
    of that account and the former password raises
    [InvalidCredentialsError], provided the hashing primitive does not
    verify the former password against the hash of the new one. *)
Theorem change_password_retires_old
    (now now' : Z) (uid cur new e : string) (table : list models.User)
    (u : models.User) :
  find (fun a => (models.id a =? uid)%string) table = Some u ->
  find (has_email e) table = Some u ->
  models.is_active u = true ->
  models.verify_password u cur = true ->
  verify_password cur (get_password_hash new) = false ->
  let table1 :=
    snd (serve settings (ChangePassword now uid cur new) table) in
  serve settings (Login now' e cur) table1
  = (Raise (InvalidCredentialsError None), table1).
Proof.
  intros Hfound Hemail Hactive Hpw Hhash. cbv zeta.
  rewrite (serve_change_password now uid cur new table Hfound Hactive Hpw).
  pose proof (find_after_change now uid new e table Hfound Hemail)
    as Hlookup.
  destruct (touched_fields
              (flush_row_touched now table (models.set_password u new)))
    as (_ & _ & _ & Hvhash & _).
  unfold serve, run, fmap, bind, AuthService.authenticate_user.
  unfold_session. cbn [objs open_session].
  unfold has_email in Hlookup. rewrite Hlookup.
  unfold models.verify_password. rewrite Hvhash. simpl.
  now rewrite Hhash.
Qed.

Lemma request_password_reset_writes (now : Z) (e : string)
    (table : list models.User) (u : models.User) :
  find (has_email e) table = Some u ->
  models.is_active u = true ->
  AuthService.request_password_reset settings now e (open_session table)
  = (Ok (Some (issued_token settings now u)),
     open_session
       (map (flush_row now table)
          (replace_row (models.id u)
             (models.set_reset_token u (issued_token settings now u)
                (now + 3600)) table))).
Proof.
  intros Hfound Hactive.
  unfold AuthService.request_password_reset. unfold_session.
  cbn [objs open_session]. unfold has_email in Hfound.
  rewrite Hfound, Hactive. reflexivity.
Qed.

(** X8. On a table with unique keys, a reset request for an active
    account returns the issued token and replaces the row of that
    account by the same row holding the token and [now + 3600]
    ([updated_at] apart): the password hash is kept and every other
    row is unchanged. *)
Theorem request_password_reset_frame
    (now : Z) (e : string) (table : list models.User) (u : models.User) :
  NoDup (map models.id table) ->
  find (has_email e) table = Some u ->
  models.is_active u = true ->
  exists u',
    serve settings (RequestPasswordReset now e) table
    = (Ok (RReset (Some (issued_token settings now u))),
       replace_row (models.id u) u' table) /\
    touched now
      (models.set_reset_token u (issued_token settings now u)
         (now + 3600)) u' /\
    models.hashed_password u' = models.hashed_password u.
Proof.
  intros Hnodup Hfound Hactive.
  exists (flush_row now table
            (models.set_reset_token u (issued_token settings now u)
               (now + 3600))).
  pose proof (flush_row_touched now table
                (models.set_reset_token u (issued_token settings now u)
                   (now + 3600))) as Htouched.
  destruct (touched_fields Htouched) as (_ & _ & _ & Hhash & _).
  split; [|split; [exact Htouched | exact Hhash]].
  unfold serve, run, fmap, bind.
  rewrite (request_password_reset_writes now e table Hfound Hactive).
  cbn [fst snd close rows open_session ret].
  now rewrite (commit_replace_unique now table (models.id u) _ Hnodup).
Qed.

(** X9. [authenticate_user] never writes, and it answers with a token
    pair only for the first account with the normalized email, when the
    password verifies against its hash and the account is active; the
    response is the one [_create_login_response] builds for it. *)
Theorem login_reads_only
    (now : Z) (e pw : string) (db : Session) :
  snd (AuthService.authenticate_user settings now e pw db) = db /\
  forall resp,
    fst (AuthService.authenticate_user settings now e pw db) = Ok resp ->
    exists u,
      find (has_email e) (objs db) = Some u /\
      models.verify_password u pw = true /\
      models.is_active u = true /\
      resp = AuthService._create_login_response settings now u.
Proof.
  unfold AuthService.authenticate_user, has_email. unfold_session.
  destruct (find _ (objs db)) as [u|];
    [|split; [reflexivity | discriminate]].
  destruct (models.verify_password u pw) eqn:Hpw;
    [|split; [reflexivity | discriminate]].
  destruct (models.is_active u) eqn:Hactive;
    [|split; [reflexivity | discriminate]].
  split; [reflexivity|]. intros resp Hresp. injection Hresp as <-.
  now exists u.
Qed.

Lemma google_creates (now : Z) (new_id rpw e nm gid : string)
    (table : list models.User) :
  find (has_email e) table = None ->
  snd (serve settings (GoogleLogin now new_id rpw e nm gid) table)
  = map (flush_row now table)
      (table ++ [new_account new_id now e rpw nm]).
Proof.
  intros Habsent. unfold serve, run, fmap, bind,
    AuthService.authenticate_with_google. unfold_session.
  cbn [objs open_session]. unfold has_email in Habsent.
  rewrite Habsent. simpl.
  match goal with
  | |- context [negb (models.is_active ?v)] =>
    destruct (negb (models.is_active v))
  end; reflexivity.
Qed.



End Writes.

(* ------------------------------------------------------------------ *)
(** ** Bearer authentication *)

Section Bearer.
Context {fc : FastapiCore}.
Context {py : Pydantic}.
Variable settings : Settings.

(** X11. [get_current_user] never writes, and it returns an account
    only when the scheme is [bearer] (in any case), the token decodes,
    its subject is a string of 26 characters, and the account is a row
    of the session with that id that is active. *)
Theorem get_current_user_sound
    (now : Z) (cred : dependencies.HTTPAuthorizationCredentials)
    (db : Session) :
  snd (dependencies.get_current_user settings now cred db) = db /\
  forall u,
    fst (dependencies.get_current_user settings now cred db) = Ok u ->
    Py.lower (dependencies.scheme cred) = "bearer" /\
    (exists payload,
       verify_token now (dependencies.credentials cred) (Some settings)
       = Ok payload /\
       Py.get payload "sub" = Py.VStr (models.id u)) /\
    String.length (models.id u) = 26%nat /\
    In u (objs db) /\
    models.is_active u = true.
Proof.
  unfold dependencies.get_current_user. unfold_session.
  destruct (Py.lower (dependencies.scheme cred) =? "bearer")%string
    eqn:Hscheme; simpl; [|split; [reflexivity | discriminate]].
  apply String.eqb_eq in Hscheme.
  destruct (verify_token now (dependencies.credentials cred)
              (Some settings)) as [payload|];
    [|split; [reflexivity | discriminate]].
  destruct (negb (Py.truthy (Py.get payload "sub")));
    [split; [reflexivity | discriminate]|].
  destruct (Py.get payload "sub") as [|b|z|s|l|d] eqn:Hsub;
    try (split; [reflexivity | discriminate]).
  simpl.
  destruct (Z.of_nat (String.length s) =? 26) eqn:Hlen; simpl;
    [|split; [reflexivity | discriminate]].
  destruct (find _ (objs db)) as [u|] eqn:Hfound;
    [|split; [reflexivity | discriminate]].
  destruct (models.is_active u) eqn:Hactive; simpl;
    [|split; [reflexivity | discriminate]].
  split; [reflexivity|]. intros u' Hu'. injection Hu' as <-.
  apply find_some in Hfound. destruct Hfound as [Hin Hid].
  apply String.eqb_eq in Hid. subst s.
  split; [exact Hscheme|]. split; [now exists payload|].
  split; [|now split]. apply Z.eqb_eq in Hlen. lia.
Qed.

(** X12. [get_current_user] does not read the type claim: a token that
    [refresh_tokens] accepts is accepted as a bearer credential, for the
    account the new pair is issued to. *)
Theorem refresh_token_accepted_as_bearer
    (now : Z) (cred : dependencies.HTTPAuthorizationCredentials)
    (db : Session) (r : TokenResponse) :
  Py.lower (dependencies.scheme cred) = "bearer" ->
  fst (AuthService.refresh_tokens settings now
         (dependencies.credentials cred) db) = Ok r ->
  exists u,
    fst (dependencies.get_current_user settings now cred db) = Ok u /\
    tr_accessToken r
    = create_access_token now [("sub", Py.VStr (models.id u))] None /\
    tr_refreshToken r
    = create_refresh_token now [("sub", Py.VStr (models.id u))] None.
Proof.
  intros Hscheme.
  unfold dependencies.get_current_user, AuthService.refresh_tokens.
  unfold_session. rewrite Hscheme. simpl.
  destruct (verify_token now (dependencies.credentials cred)
              (Some settings)) as [payload|]; [|discriminate].
  destruct (negb (Py.eq_str (Py.get payload "type") "refresh"));
    [discriminate|].
  destruct (negb (Py.truthy (Py.get payload "sub"))); [discriminate|].
  destruct (negb (Py.is_str (Py.get payload "sub"))
            || negb (Py.str_len (Py.get payload "sub") =? 26));
    [discriminate|].
  destruct (find _ (objs db)) as [u|]; [|discriminate].
  destruct (models.is_active u); simpl; [|discriminate].
  intros Hr. injection Hr as <-. exists u. now repeat split.
Qed.

Lemma find_id_sym (l : list models.User) (uid : string) :
  find (fun a => (uid =? models.id a)%string) l
  = find (fun a => (models.id a =? uid)%string) l.
Proof.
  induction l as [|a l IH]; simpl; [reflexivity|].
  now rewrite String.eqb_sym, IH.
Qed.

(** What [get_current_user] returns is what the lookup by its id finds. *)
Lemma get_current_user_found (now : Z)
    (cred : dependencies.HTTPAuthorizationCredentials) (db : Session)
    (u : models.User) :
  fst (dependencies.get_current_user settings now cred db) = Ok u ->
  dependencies.get_current_user settings now cred db = (Ok u, db) /\
  find (fun a => (models.id a =? models.id u)%string) (objs db) = Some u /\
  models.is_active u = true.
Proof.
  unfold dependencies.get_current_user. unfold_session.
  destruct (negb (Py.lower (dependencies.scheme cred) =? "bearer")%string);
    [discriminate|].
  destruct (verify_token now (dependencies.credentials cred)
              (Some settings)) as [payload|]; [|discriminate].
  destruct (negb (Py.truthy (Py.get payload "sub"))); [discriminate|].
  destruct (Py.get payload "sub") as [|b|z|s|l|d]; try discriminate.
  destruct (negb (Py.is_str (Py.VStr s))
            || negb (Py.str_len (Py.VStr s) =? 26)); [discriminate|].
  simpl. rewrite find_id_sym.
  destruct (find _ (objs db)) as [u'|] eqn:Hfound; [|discriminate].
  destruct (models.is_active u') eqn:Hactive; simpl; [|discriminate].
  intros Hu. injection Hu as ->.
  pose proof (find_some _ _ Hfound) as [_ Hid].
  apply String.eqb_eq in Hid. subst s.
  now repeat split.
Qed.

(** X13. Behind a bearer token that [get_current_user] accepts, the
    change-password endpoint fails only with "Current password is
    incorrect", without writing; when the current password verifies it
    answers its success message, and every committed row of the
    caller's account has the hash of the new password. *)
Theorem change_password_authenticated
    (now : Z) (cred : dependencies.HTTPAuthorizationCredentials)
    (cur new : string) (db : Session) (u : models.User) :
  fst (dependencies.get_current_user settings now cred db) = Ok u ->
  let out := api.change_password settings now cred cur new db in
  if models.verify_password u cur
  then
    fst out = Ok {| message := "Password has been successfully changed" |}
    /\ forall o, In o (rows (snd out)) -> models.id o = models.id u ->
         models.hashed_password o = get_password_hash new
  else
    out = (Raise (InvalidCredentialsError
                    (Some "Current password is incorrect")), db).
Proof.
  intros Hcurrent. cbv zeta.
  destruct (get_current_user_found now cred db Hcurrent)
    as (Hrun & Hfound & Hactive).
  assert (Hout :
    api.change_password settings now cred cur new db
    = let (r, db') :=
        AuthService.change_password now (models.id u) cur new db in
      match r with
      | Ok _ =>
        (Ok {| message := "Password has been successfully changed" |}, db')
      | Raise e => (Raise e, db')
      end).
  { unfold api.change_password, dependencies.get_current_active_user,
      bind, ret.
    rewrite Hrun. reflexivity. }
  rewrite Hout. clear Hout.
  unfold AuthService.change_password. unfold_session.
  rewrite Hfound, Hactive.
  destruct (models.verify_password u cur); simpl; [|reflexivity].
  split; [reflexivity|].
  intros o Ho Hid.
  apply in_map_iff in Ho. destruct Ho as [o1 [<- Ho1]].
  apply in_map_iff in Ho1. destruct Ho1 as [o0 [<- _]].
  destruct (touched_fields
              (flush_row_touched now (rows db)
                 (if (models.id o0 =? models.id u)%string
                  then models.set_password u new else o0)))
    as (Hfid & _ & _ & Hfhash & _).
  rewrite Hfhash. rewrite Hfid in Hid.
  destruct (models.id o0 =? models.id u)%string eqn:Hsame;
    [reflexivity|].
  apply String.eqb_neq in Hsame. contradiction.
Qed.

(** X19. On a table with unique keys, for an account whose view
    validates, the refresh token that a login returns passes every
    check of [refresh_tokens]: the call raises none of the failures of
    the application and leaves the table as it is, so that what is left
    is the signing of the new pair; this when the id of the account has
    26 characters and the codec decodes the refresh token it signed to
    its subject with the type [refresh]. *)
Theorem login_then_refresh
    (now now' : Z) (e pw : string) (table : list models.User)
    (u : models.User) (payload : Py.dict) :
  NoDup (map models.id table) ->
  find (has_email e) table = Some u ->
  models.verify_password u pw = true ->
  models.is_active u = true ->
  view_validates u = true ->
  String.length (models.id u) = 26%nat ->
  verify_token now'
    (create_refresh_token now [("sub", Py.VStr (models.id u))]
       (Some settings)) (Some settings) = Ok payload ->
  Py.get payload "type" = Py.VStr "refresh" ->
  Py.get payload "sub" = Py.VStr (models.id u) ->
  exists r,
    serve settings (Login now e pw) table = (Ok (RLogin r), table) /\
    snd (serve settings (Refresh now' (refreshToken r)) table) = table /\
    forall cls msg status,
      fst (serve settings (Refresh now' (refreshToken r)) table)
      <> Raise (AuthenticationError cls msg status).
Proof.
  intros Hnodup Hfound Hpw Hactive _ Hlen Hdec Htype Hsub.
  assert (Hnonempty : (models.id u =? "")%string = false).
  { destruct (models.id u =? "")%string eqn:Hempty; [|reflexivity].
    apply String.eqb_eq in Hempty. rewrite Hempty in Hlen. discriminate. }
  assert (Hbyid :
    find (fun a => (models.id u =? models.id a)%string) table = Some u).
  { rewrite find_id_sym. apply find_by_id_unique; [exact Hnodup|].
    now apply (find_some _ _ Hfound). }
  assert (Hrefresh : exists r',
    serve settings
      (Refresh now'
         (refreshToken (AuthService._create_login_response settings now u)))
      table
    = (Ok (RToken r'), table)).
  { eexists.
    unfold serve, run, fmap, bind, AuthService.refresh_tokens.
    unfold_session. cbn [refreshToken AuthService._create_login_response].
    unfold AuthService.sub_claims. rewrite Hdec, Htype, Hsub. simpl.
    rewrite Hnonempty, Hlen. simpl. rewrite Hbyid, Hactive. simpl.
    reflexivity. }
  destruct Hrefresh as [r' Hrefresh].
  exists (AuthService._create_login_response settings now u).
  split; [|split].
  - unfold serve, run, fmap, bind.
    rewrite (@authenticate_user_finds _ settings now e pw
               (open_session table) u Hfound Hpw Hactive).
    reflexivity.
  - now rewrite Hrefresh.
  - intros cls msg status. rewrite Hrefresh. discriminate.
Qed.

End Bearer.

(* ------------------------------------------------------------------ *)
(** ** Failures and their answers *)

(** X14. When a request raises an [AuthenticationError], the exception
    that the handler is written for, either [refresh_tokens] passes on
    the failure of [verify_token], or the class of the exception is one
    that the docstring of the service function lists under [Raises],
    with the status of that class; the handler answers it with that
    status, the message as [detail], and the [WWW-Authenticate: Bearer]
    header exactly when the status is 401. *)
Theorem failures_are_documented {fc : FastapiCore} (settings : Settings)
    (c : call) (db : Session) (cls : auth_error) (msg : string)
    (status : Z) :
  fst (run settings c db) = Raise (AuthenticationError cls msg status) ->
  (exists now tok,
     c = Refresh now tok /\
     verify_token now tok (Some settings)
     = Raise (AuthenticationError cls msg status))
  \/ (In cls (documented_raises c) /\
      status = status_of cls /\
      exceptions.authentication_exception_handler
        (AuthenticationError cls msg status)
      = Some (answer cls msg)).
Proof.
  destruct c as
    [now new_id em pw nm | now em pw | now tok | tok u | u | now em
    | now em | now tok npw | now uid cpw npw
    | now new_id rpw em nm gid];
    simpl.
  - unfold AuthService.register_user. unfold_session.
    destruct (find _ (objs db)); simpl; documented.
  - unfold AuthService.authenticate_user. unfold_session.
    destruct (find _ (objs db)) as [u|]; simpl; [|documented].
    destruct (models.verify_password u pw); simpl; [|documented].
    destruct (models.is_active u); simpl; documented.
  - unfold AuthService.refresh_tokens. unfold_session.
    destruct (verify_token now tok (Some settings)) as [payload|e']
      eqn:Hdec.
    + destruct (negb (Py.eq_str (Py.get payload "type") "refresh"));
        simpl; [documented|].
      destruct (negb (Py.truthy (Py.get payload "sub")));
        simpl; [documented|].
      destruct (negb (Py.is_str (Py.get payload "sub"))
                || negb (Py.str_len (Py.get payload "sub") =? 26));
        simpl; [documented|].
      destruct (find _ (objs db)) as [u|]; simpl; [|documented].
      destruct (models.is_active u); simpl; documented.
    + simpl. intros Hraise. injection Hraise as ->.
      left. now exists now, tok.
  - discriminate.
  - discriminate.
  - unfold AuthService.forgot_password,
      AuthService.request_password_reset. unfold_session.
    destruct (find _ (objs db)) as [u|]; simpl; [|documented].
    destruct (models.is_active u); simpl; documented.
  - unfold AuthService.request_password_reset. unfold_session.
    destruct (find _ (objs db)) as [u|]; simpl; [|documented].
    destruct (models.is_active u); simpl; documented.
  - unfold fmap, bind. rewrite reset_password_raises. simpl. documented.
  - unfold AuthService.change_password. unfold_session.
    destruct (find _ (objs db)) as [u|]; simpl; [|documented].
    destruct (models.is_active u); simpl; [|documented].
    destruct (models.verify_password u cpw); simpl; documented.
  - unfold AuthService.authenticate_with_google. unfold_session.
    destruct (find _ (objs db)) as [u|]; simpl.
    + destruct (models.is_active u); simpl; documented.
    + match goal with
      | |- context [negb (models.is_active ?v)] =>
        destruct (negb (models.is_active v))
      end; simpl; documented.
Qed.

(* ------------------------------------------------------------------ *)
(** ** Password fields *)

Lemma search_exists (cls : ascii -> bool) (v : string) :
  schemas.search cls v = true
  <-> exists c, In c (list_ascii_of_string v) /\ cls c = true.
Proof. unfold schemas.search. apply existsb_exists. Qed.

(** X15. The new-password field accepts a value, unchanged, exactly
    when it has 8 to 100 characters and contains an uppercase letter
    [A-Z], a lowercase letter [a-z], a digit and one of the special
    characters. *)
Theorem new_password_field_accepts (v v' : string) :
  schemas.new_password_field v = schemas.Valid v'
  <-> v' = v /\
      (8 <= String.length v <= 100)%nat /\
      (exists c, In c (list_ascii_of_string v) /\
                 schemas.upper_class c = true) /\
      (exists c, In c (list_ascii_of_string v) /\
                 schemas.lower_class c = true) /\
      (exists c, In c (list_ascii_of_string v) /\
                 schemas.digit_class c = true) /\
      (exists c, In c (list_ascii_of_string v) /\
                 In c schemas.special_chars).
Proof.
  assert (Hspecial : forall c,
            schemas.special_class c = true <-> In c schemas.special_chars).
  { intros c. unfold schemas.special_class. rewrite existsb_exists.
    split.
    - intros [d [Hd Heq]]. apply Ascii.eqb_eq in Heq. now subst d.
    - intros Hc. exists c. split; [exact Hc | apply Ascii.eqb_refl]. }
  unfold schemas.new_password_field, schemas.validate_password_strength.
  destruct (Nat.ltb_spec (String.length v) 8) as [Hshort | Hmin].
  { split; [discriminate|]. intros (_ & Hlen & _). lia. }
  destruct (Nat.ltb_spec 100 (String.length v)) as [Hlong | Hmax].
  { split; [discriminate|]. intros (_ & Hlen & _). lia. }
  destruct (schemas.search schemas.upper_class v) eqn:Hup; simpl.
  2:{ split; [discriminate|]. intros (_ & _ & H & _).
      apply search_exists in H. congruence. }
  destruct (schemas.search schemas.lower_class v) eqn:Hlow; simpl.
  2:{ split; [discriminate|]. intros (_ & _ & _ & H & _).
      apply search_exists in H. congruence. }
  destruct (schemas.search schemas.digit_class v) eqn:Hdig; simpl.
  2:{ split; [discriminate|]. intros (_ & _ & _ & _ & H & _).
      apply search_exists in H. congruence. }
  destruct (schemas.search schemas.special_class v) eqn:Hspec; simpl.
  2:{ split; [discriminate|]. intros (_ & _ & _ & _ & _ & [c [Hc Hin]]).
      assert (schemas.search schemas.special_class v = true).
      { apply search_exists. exists c. split; [exact Hc|].
        now apply Hspecial. }
      congruence. }
  split.
  - intros Hv. injection Hv as <-.
    split; [reflexivity|]. split; [lia|].
    apply search_exists in Hup, Hlow, Hdig, Hspec.
    destruct Hspec as [c [Hc Hcls]]. apply Hspecial in Hcls.
    repeat split; eauto.
  - intros (-> & _). reflexivity.
Qed.

(* ------------------------------------------------------------------ *)
(** ** What a request can do to the table *)

Section TableInvariants.
Context {fc : FastapiCore}.
Variable settings : Settings.

Lemma refresh_tokens_reads (now : Z) (tok : string) (db : Session) :
  snd (AuthService.refresh_tokens settings now tok db) = db.
Proof.
  unfold AuthService.refresh_tokens. unfold_session.
  destruct (verify_token now tok (Some settings)) as [payload|];
    [|reflexivity].
  destruct (negb (Py.eq_str (Py.get payload "type") "refresh"));
    [reflexivity|].
  destruct (negb (Py.truthy (Py.get payload "sub"))); [reflexivity|].
  destruct (negb (Py.is_str (Py.get payload "sub"))
            || negb (Py.str_len (Py.get payload "sub") =? 26));
    [reflexivity|].
  destruct (find _ (objs db)) as [u|]; [|reflexivity].
  now destruct (negb (models.is_active u)).
Qed.

Lemma authenticate_user_reads (now : Z) (e pw : string) (db : Session) :
  snd (AuthService.authenticate_user settings now e pw db) = db.
Proof.
  unfold AuthService.authenticate_user. unfold_session.
  destruct (find _ (objs db)) as [u|]; [|reflexivity].
  destruct (negb (models.verify_password u pw)); [reflexivity|].
  now destruct (negb (models.is_active u)).
Qed.

Lemma serve_snd {A} (m : M A) (f : A -> response)
    (table : list models.User) :
  close (snd (fmap f m (open_session table)))
  = close (snd (m (open_session table))).
Proof.
  unfold fmap, bind, ret.
  now destruct (m (open_session table)) as [[a|e] db'].
Qed.

(** A request leaves the table as it is, or rewrites the rows of one
    account without touching its key or its email, or appends a new
    account under an email that no row had. *)
Lemma serve_effect (c : call) (table : list models.User) :
  snd (serve settings c table) = table
  \/ (exists now u u0,
        In u table /\
        models.id u0 = models.id u /\
        models.email u0 = models.email u /\
        snd (serve settings c table)
        = map (flush_row now table) (replace_row (models.id u) u0 table))
  \/ (exists now new_id e pw nm,
        drawn_id c = Some new_id /\
        find (has_email e) table = None /\
        snd (serve settings c table)
        = map (flush_row now table)
            (table ++ [new_account new_id now e pw nm])).
Proof.
  destruct c as
    [now new_id em pw nm | now em pw | now tok | tok u | u | now em
    | now em | now tok npw | now uid cpw npw
    | now new_id rpw em nm gid].
  - destruct (find (has_email em) table) as [u|] eqn:Hfound.
    + left. unfold serve, run, fmap, bind, AuthService.register_user.
      unfold_session. cbn [objs open_session].
      unfold has_email in Hfound. now rewrite Hfound.
    + right. right. exists now, new_id, em, pw, nm.
      split; [reflexivity|]. split; [exact Hfound|].
      now rewrite (serve_register settings now new_id em pw nm table
                     Hfound).
  - left. unfold serve, run. cbn [snd]. rewrite serve_snd.
    now rewrite authenticate_user_reads.
  - left. unfold serve, run. cbn [snd]. rewrite serve_snd.
    now rewrite refresh_tokens_reads.
  - now left.
  - now left.
  - destruct (find (has_email em) table) as [u|] eqn:Hfound;
      [destruct (models.is_active u) eqn:Hactive|].
    + right. left.
      exists now, u,
        (models.set_reset_token u (issued_token settings now u)
           (now + 3600)).
      split; [now apply (find_some _ _ Hfound)|].
      split; [reflexivity|]. split; [reflexivity|].
      unfold serve, run. cbn [snd]. rewrite serve_snd.
      unfold AuthService.forgot_password, bind.
      now rewrite (request_password_reset_writes settings now em table
                     Hfound Hactive).
    + left. unfold serve, run. cbn [snd]. rewrite serve_snd.
      unfold AuthService.forgot_password, bind.
      rewrite request_password_reset_skips; [reflexivity|].
      cbn [objs open_session]. unfold has_email in Hfound.
      now rewrite Hfound.
    + left. unfold serve, run. cbn [snd]. rewrite serve_snd.
      unfold AuthService.forgot_password, bind.
      rewrite request_password_reset_skips; [reflexivity|].
      cbn [objs open_session]. unfold has_email in Hfound.
      now rewrite Hfound.
  - destruct (find (has_email em) table) as [u|] eqn:Hfound;
      [destruct (models.is_active u) eqn:Hactive|].
    + right. left.
      exists now, u,
        (models.set_reset_token u (issued_token settings now u)
           (now + 3600)).
      split; [now apply (find_some _ _ Hfound)|].
      split; [reflexivity|]. split; [reflexivity|].
      unfold serve, run. cbn [snd]. rewrite serve_snd.
      now rewrite (request_password_reset_writes settings now em table
                     Hfound Hactive).
    + left. unfold serve, run. cbn [snd]. rewrite serve_snd.
      rewrite request_password_reset_skips; [reflexivity|].
      cbn [objs open_session]. unfold has_email in Hfound.
      now rewrite Hfound.
    + left. unfold serve, run. cbn [snd]. rewrite serve_snd.
      rewrite request_password_reset_skips; [reflexivity|].
      cbn [objs open_session]. unfold has_email in Hfound.
      now rewrite Hfound.
  - left. unfold serve, run. cbn [snd]. rewrite serve_snd.
    now rewrite reset_password_raises.
  - destruct (find (fun a => (models.id a =? uid)%string) table)
      as [u|] eqn:Hfound;
      [destruct (models.is_active u) eqn:Hactive;
       [destruct (models.verify_password u cpw) eqn:Hpw|]|].
    + right. left. exists now, u, (models.set_password u npw).
      pose proof (find_some _ _ Hfound) as [Hin Hid].
      apply String.eqb_eq in Hid.
      split; [exact Hin|]. split; [reflexivity|]. split; [reflexivity|].
      unfold serve, run. cbn [snd]. rewrite serve_snd.
      rewrite (change_password_writes now uid cpw npw table
                 Hfound Hactive Hpw).
      now rewrite Hid.
    + left. unfold serve, run, fmap, bind, AuthService.change_password.
      unfold_session. cbn [objs open_session].
      now rewrite Hfound, Hactive, Hpw.
    + left. unfold serve, run, fmap, bind, AuthService.change_password.
      unfold_session. cbn [objs open_session].
      now rewrite Hfound, Hactive.
    + left. unfold serve, run, fmap, bind, AuthService.change_password.
      unfold_session. cbn [objs open_session]. now rewrite Hfound.
  - destruct (find (has_email em) table) as [u|] eqn:Hfound.
    + left. unfold serve, run, fmap, bind,
        AuthService.authenticate_with_google.
      unfold_session. cbn [objs open_session].
      unfold has_email in Hfound. rewrite Hfound. simpl.
      now destruct (models.is_active u).
    + right. right. exists now, new_id, em, rpw, nm.
      split; [reflexivity|]. split; [exact Hfound|].
      apply (google_creates settings now new_id rpw em nm gid table
               Hfound).
Qed.

End TableInvariants.

Section Invariants.
Context {fc : FastapiCore}.
Variable settings : Settings.

Lemma flush_row_id (now : Z) (old : list models.User) (o : models.User) :
  models.id (flush_row now old o) = models.id o.
Proof. exact (proj1 (touched_fields (flush_row_touched now old o))). Qed.

Lemma flush_row_email (now : Z) (old : list models.User)
    (o : models.User) :
  models.email (flush_row now old o) = models.email o.
Proof.
  exact (proj1 (proj2 (touched_fields (flush_row_touched now old o)))).
Qed.

Lemma NoDup_snoc {A} (l : list A) (a : A) :
  NoDup l -> ~ In a l -> NoDup (l ++ [a])%list.
Proof.
  intros Hl Ha. apply NoDup_app; [exact Hl | repeat constructor; easy |].
  intros x Hx [<- | []]. contradiction.
Qed.

Lemma serve_keeps_normalized (c : call) (table : list models.User) :
  emails_normalized table ->
  emails_normalized (snd (serve settings c table)).
Proof.
  intros Hnorm. unfold emails_normalized in *.
  rewrite Forall_forall in Hnorm.
  destruct (serve_effect settings c table)
    as [-> | [(now & u & u0 & Hin & _ & Hemail & ->)
             | (now & new_id & e & pw & nm & _ & _ & ->)]].
  - now apply Forall_forall.
  - unfold replace_row. rewrite map_map. apply Forall_forall.
    intros o Ho. apply in_map_iff in Ho. destruct Ho as [o0 [<- Ho0]].
    rewrite flush_row_email.
    destruct (models.id o0 =? models.id u)%string.
    + rewrite Hemail. now apply Hnorm.
    + now apply Hnorm.
  - apply Forall_forall. intros o Ho.
    apply in_map_iff in Ho. destruct Ho as [o0 [<- Ho0]].
    rewrite flush_row_email. apply in_app_iff in Ho0.
    destruct Ho0 as [Ho0 | [<- | []]]; [now apply Hnorm|].
    simpl. apply normalize_normalize.
Qed.

(** X16. Every request keeps every stored email in normal form, so that
    in every table reached from the empty one each stored email is a
    fixed point of the normalization that the lookups apply. *)
Theorem stored_emails_normalized (calls : list call) :
  (forall c table,
     emails_normalized table ->
     emails_normalized (snd (serve settings c table))) /\
  emails_normalized (serve_all settings calls []).
Proof.
  split; [exact serve_keeps_normalized|].
  assert (Hall : forall table, emails_normalized table ->
                   emails_normalized (serve_all settings calls table)).
  { induction calls as [|c rest IH]; intros table Htable; simpl;
      [exact Htable|].
    apply IH. now apply serve_keeps_normalized. }
  apply Hall. constructor.
Qed.

(** X17. On a table whose keys and emails are unique, a request that
    draws no ULID already in the table leaves keys and emails unique. *)
Theorem unique_keys_preserved (c : call) (table : list models.User) :
  unique_keys table ->
  draws_fresh_id c table ->
  unique_keys (snd (serve settings c table)).
Proof.
  intros [Hids Hemails] Hfresh. unfold unique_keys.
  destruct (serve_effect settings c table)
    as [-> | [(now & u & u0 & Hin & Hid & Hemail & ->)
             | (now & new_id & e & pw & nm & Hdrawn & Habsent & ->)]].
  - now split.
  - assert (Hsame_id :
      map models.id
        (map (flush_row now table) (replace_row (models.id u) u0 table))
      = map models.id table).
    { unfold replace_row. rewrite !map_map. apply map_ext. intros o.
      rewrite flush_row_id.
      destruct (models.id o =? models.id u)%string eqn:Ho;
        [|reflexivity].
      apply String.eqb_eq in Ho. congruence. }
    assert (Hsame_email :
      map models.email
        (map (flush_row now table) (replace_row (models.id u) u0 table))
      = map models.email table).
    { unfold replace_row. rewrite !map_map. apply map_ext_in.
      intros o Ho. rewrite flush_row_email.
      destruct (models.id o =? models.id u)%string eqn:Hou;
        [|reflexivity].
      apply String.eqb_eq in Hou.
      pose proof (find_by_id_unique table o Hids Ho) as Hfo.
      pose proof (find_by_id_unique table u Hids Hin) as Hfu.
      rewrite Hou in Hfo. rewrite Hfo in Hfu. injection Hfu as ->.
      exact Hemail. }
    rewrite Hsame_id, Hsame_email. now split.
  - unfold draws_fresh_id in Hfresh. rewrite Hdrawn in Hfresh.
    rewrite !map_map.
    rewrite (map_ext _ models.id (flush_row_id now table)).
    rewrite (map_ext _ models.email (flush_row_email now table)).
    rewrite !map_app. simpl. split.
    + now apply NoDup_snoc.
    + apply NoDup_snoc; [exact Hemails|].
      intros Hexists. apply in_map_iff in Hexists.
      destruct Hexists as [o [Ho Hino]].
      pose proof (find_none _ _ Habsent o Hino) as Hno.
      unfold has_email in Hno. rewrite Ho, String.eqb_refl in Hno.
      discriminate.
Qed.

End Invariants.

(* ------------------------------------------------------------------ *)
(** ** The properties above on the sample table *)



Lemma sample_ids_unique : NoDup (map models.id Sample.table).
Proof.
  constructor; [simpl; intuition discriminate|].
  constructor; [simpl; intuition|]. constructor.
Defined.

Lemma sample_emails_unique : NoDup (map models.email Sample.table).
Proof.
  constructor; [simpl; intuition discriminate|].
  constructor; [simpl; intuition|]. constructor.
Defined.


Lemma change_password_frame_witness :
  exists u',
    @serve Sample.core Sample.settings
      (ChangePassword 5000 Sample.alice_id "Passw0rd!" "N3w!Passw")
      Sample.table
    = (Ok (RDone true), replace_row Sample.alice_id u' Sample.table) /\
    touched 5000
      (@models.set_password Sample.core Sample.alice "N3w!Passw") u' /\
    models.hashed_password u'
    = @get_password_hash Sample.core "N3w!Passw" /\
    models.reset_token u' = models.reset_token Sample.alice /\
    models.reset_token_expiry u' = models.reset_token_expiry Sample.alice.
Proof.
  apply (@change_password_frame Sample.core Sample.settings 5000
           Sample.alice_id "Passw0rd!" "N3w!Passw" Sample.table
           Sample.alice);
    [exact sample_ids_unique | reflexivity | reflexivity | reflexivity].
Defined.

Lemma change_password_then_login_witness :
  let table1 :=
    snd (@serve Sample.core Sample.settings
           (ChangePassword 5000 Sample.alice_id "Passw0rd!" "N3w!Passw")
           Sample.table) in
  exists r,
    @serve Sample.core Sample.settings
      (Login 6000 "Alice@example.com" "N3w!Passw") table1
    = (Ok (RLogin r), table1) /\
    id (user r) = models.id Sample.alice.
Proof.
  apply (@change_password_then_login Sample.core Sample.pydantic
           Sample.settings 5000 6000
           Sample.alice_id "Passw0rd!" "N3w!Passw" "Alice@example.com"
           Sample.table Sample.alice);
    reflexivity.
Defined.

Lemma change_password_retires_old_witness :
  let table1 :=
    snd (@serve Sample.core Sample.settings
           (ChangePassword 5000 Sample.alice_id "Passw0rd!" "N3w!Passw")
           Sample.table) in
  @serve Sample.core Sample.settings
    (Login 6000 "Alice@example.com" "Passw0rd!") table1
  = (Raise (InvalidCredentialsError None), table1).
Proof.
  apply (@change_password_retires_old Sample.core Sample.settings
           5000 6000 Sample.alice_id "Passw0rd!" "N3w!Passw"
           "Alice@example.com" Sample.table Sample.alice);
    reflexivity.
Defined.

Lemma request_password_reset_frame_witness :
  exists u',
    @serve Sample.core Sample.settings
      (RequestPasswordReset 5000 "Alice@Example.com ") Sample.table
    = (Ok (RReset (Some (@issued_token Sample.core Sample.settings 5000
                           Sample.alice))),
       replace_row (models.id Sample.alice) u' Sample.table) /\
    touched 5000
      (models.set_reset_token Sample.alice
         (@issued_token Sample.core Sample.settings 5000 Sample.alice)
         (5000 + 3600)) u' /\
    models.hashed_password u' = models.hashed_password Sample.alice.
Proof.
  apply (@request_password_reset_frame Sample.core Sample.settings 5000
           "Alice@Example.com " Sample.table Sample.alice);
    [exact sample_ids_unique | reflexivity | reflexivity].
Defined.

Lemma login_reads_only_witness :
  exists u,
    find (has_email "alice@example.com") (objs (open_session Sample.table))
    = Some u /\
    @models.verify_password Sample.core u "Passw0rd!" = true /\
    models.is_active u = true /\
    @AuthService._create_login_response Sample.core Sample.settings 5000
      Sample.alice
    = @AuthService._create_login_response Sample.core Sample.settings
        5000 u.
Proof.
  destruct (@login_reads_only Sample.core Sample.settings 5000
              "alice@example.com" "Passw0rd!" (open_session Sample.table))
    as [_ Hsound].
  apply Hsound. reflexivity.
Defined.


Lemma get_current_user_sound_witness :
  Py.lower "Bearer" = "bearer" /\
  (exists payload,
     @verify_token Sample.core 5000
       "access:6800:01HZX3KQ9R8T7V6W5Y4A3B2C1D" (Some Sample.settings)
     = Ok payload /\
     Py.get payload "sub" = Py.VStr (models.id Sample.alice)) /\
  String.length (models.id Sample.alice) = 26%nat /\
  In Sample.alice (objs (open_session Sample.table)) /\
  models.is_active Sample.alice = true.
Proof.
  destruct (@get_current_user_sound Sample.core Sample.settings 5000
              {| dependencies.scheme := "Bearer";
                 dependencies.credentials :=
                   "access:6800:01HZX3KQ9R8T7V6W5Y4A3B2C1D" |}
              (open_session Sample.table)) as [_ Hsound].
  apply (Hsound Sample.alice). reflexivity.
Defined.

Lemma refresh_token_accepted_as_bearer_witness :
  exists u,
    fst (@dependencies.get_current_user Sample.core Sample.settings 5000
           {| dependencies.scheme := "Bearer";
              dependencies.credentials :=
                "refresh:609800:01HZX3KQ9R8T7V6W5Y4A3B2C1D" |}
           (open_session Sample.table)) = Ok u /\
    "access:6800:01HZX3KQ9R8T7V6W5Y4A3B2C1D"
    = @create_access_token Sample.core 5000
        [("sub", Py.VStr (models.id u))] None /\
    "refresh:609800:01HZX3KQ9R8T7V6W5Y4A3B2C1D"
    = @create_refresh_token Sample.core 5000
        [("sub", Py.VStr (models.id u))] None.
Proof.
  apply (@refresh_token_accepted_as_bearer Sample.core Sample.settings
           5000
           {| dependencies.scheme := "Bearer";
              dependencies.credentials :=
                "refresh:609800:01HZX3KQ9R8T7V6W5Y4A3B2C1D" |}
           (open_session Sample.table)
           {| tr_accessToken := "access:6800:01HZX3KQ9R8T7V6W5Y4A3B2C1D";
              tr_refreshToken :=
                "refresh:609800:01HZX3KQ9R8T7V6W5Y4A3B2C1D";
              tr_tokenType := "bearer";
              tr_expiresIn := 1800 |});
    reflexivity.
Defined.

Lemma change_password_authenticated_witness :
  @api.change_password Sample.core Sample.settings 5000
    {| dependencies.scheme := "bearer";
       dependencies.credentials :=
         "access:6800:01HZX3KQ9R8T7V6W5Y4A3B2C1D" |}
    "Wr0ng!pass" "N3w!Passw" (open_session Sample.table)
  = (Raise (InvalidCredentialsError (Some "Current password is incorrect")),
     open_session Sample.table).
Proof.
  exact (@change_password_authenticated Sample.core Sample.settings 5000
           {| dependencies.scheme := "bearer";
              dependencies.credentials :=
                "access:6800:01HZX3KQ9R8T7V6W5Y4A3B2C1D" |}
           "Wr0ng!pass" "N3w!Passw" (open_session Sample.table)
           Sample.alice eq_refl).
Defined.

Lemma login_then_refresh_witness :
  exists r,
    @serve Sample.core Sample.settings
      (Login 5000 "alice@example.com" "Passw0rd!") Sample.table
    = (Ok (RLogin r), Sample.table) /\
    snd (@serve Sample.core Sample.settings
           (Refresh 5060 (refreshToken r)) Sample.table)
    = Sample.table /\
    forall cls msg status,
      fst (@serve Sample.core Sample.settings
             (Refresh 5060 (refreshToken r)) Sample.table)
      <> Raise (AuthenticationError cls msg status).
Proof.
  apply (@login_then_refresh Sample.core Sample.pydantic Sample.settings
           5000 5060
           "alice@example.com" "Passw0rd!" Sample.table Sample.alice
           [ ("sub", Py.VStr Sample.alice_id);
             ("type", Py.VStr "refresh"); ("exp", Py.VInt 609800) ]);
    [exact sample_ids_unique | reflexivity ..].
Defined.

Lemma failures_are_documented_witness :
  (exists now tok,
     Login 5000 "carol@example.com" "Passw0rd!" = Refresh now tok /\
     @verify_token Sample.core now tok (Some Sample.settings)
     = Raise (AuthenticationError InvalidCredentials
                "Incorrect email or password" 401))
  \/ (In InvalidCredentials
         (documented_raises (Login 5000 "carol@example.com" "Passw0rd!")) /\
      401 = status_of InvalidCredentials /\
      exceptions.authentication_exception_handler
        (AuthenticationError InvalidCredentials
           "Incorrect email or password" 401)
      = Some (answer InvalidCredentials "Incorrect email or password")).
Proof.
  apply (@failures_are_documented Sample.core Sample.settings
           (Login 5000 "carol@example.com" "Passw0rd!")
           (open_session Sample.table)).
  reflexivity.
Defined.

Lemma new_password_field_accepts_witness :
  (8 <= String.length "Passw0rd!" <= 100)%nat.
Proof.
  exact (proj1 (proj2 (proj1 (new_password_field_accepts
                                "Passw0rd!" "Passw0rd!") eq_refl))).
Defined.

Lemma sample_emails_normalized : emails_normalized Sample.table.
Proof. repeat constructor. Defined.

Lemma stored_emails_normalized_witness :
  emails_normalized
    (snd (@serve Sample.core Sample.settings
            (Register 5000 "01HZX3KQ9R8T7V6W5Y4A3B2C1F"
               "Carol@Example.com" "Passw0rd!" "Carol") Sample.table)).
Proof.
  apply (proj1 (@stored_emails_normalized Sample.core Sample.settings [])).
  exact sample_emails_normalized.
Defined.

Lemma unique_keys_preserved_witness :
  unique_keys
    (snd (@serve Sample.core Sample.settings
            (Register 5000 "01HZX3KQ9R8T7V6W5Y4A3B2C1F"
               "Carol@Example.com" "Passw0rd!" "Carol") Sample.table)).
Proof.
  apply (@unique_keys_preserved Sample.core Sample.settings).
  - split; [exact sample_ids_unique | exact sample_emails_unique].
  - unfold draws_fresh_id. simpl. intuition discriminate.
Defined.
